(** * Octograph: tariff resolution, cost fields and series assembly

    A shallow embedding of [app/octopus_to_influxdb.py].

    - Python exceptions are values of [exn]; a computation that may raise
      returns a [result].
    - JSON numbers and configuration floats are IEEE binary64 values
      (Python [float]), the primitive [float] of Rocq.
    - A [MayaDT] is its epoch in whole seconds ([Z]); maya compares two
      [MayaDT] through [int(self)], that is on whole seconds.
    - Python dictionaries built by the program ([fields], [agile_rates]) are
      [gmap string _]; dictionaries with a fixed schema (a reading, a rate
      catalog, a tag set) are records.
    - The third-party parsers ([maya.parse], [maya.when]) and the time-zone
      database are a parameter of the development, the class [TimeLib];
      [RefLib] gives one instance (ISO-8601 timestamps, the zones UTC and
      Europe/London) on which the program is run on concrete inputs.
    - What [cmd] does to the outside world (HTTP requests, terminal
      output, database writes) is a list of events, in order. *)

From Stdlib Require Import ZArith Ascii String.
From Stdlib Require Import Floats.PrimFloat.
From Stdlib Require Uint63.
From stdpp Require Import base tactics option list strings pretty gmap.

#[local] Set Warnings "-inexact-float".

Local Open Scope string_scope.
Local Open Scope list_scope.
Local Open Scope Z_scope.

(** ** Exceptions and results *)

Inductive exn :=
| KeyError (key : string)
| ValueError (msg : string)
| ParserError (input : string)
| UnknownTimeZoneError (zone : string)
| IndexError
| HTTPError (url : string)
| NoSectionError (section : string)
| NoOptionError (option_ section : string)
| RecursionError
| ClickException (message : string).

Inductive result (A : Type) :=
| Ok (a : A)
| Raise (e : exn).
Arguments Ok {A} a.
Arguments Raise {A} e.

#[global] Instance result_ret : MRet result := @Ok.
#[global] Instance result_bind : MBind result :=
  λ A B f m, match m with Ok a => f a | Raise e => Raise e end.
#[global] Instance result_fmap : FMap result :=
  λ A B f m, match m with Ok a => Ok (f a) | Raise e => Raise e end.

(** [d[k]] on a key that may be absent. *)
Definition subscript {A} (key : string) (o : option A) : result A :=
  match o with
  | Some a => Ok a
  | None => Raise (KeyError key)
  end.

(** [[f(x) for x in xs]]: left to right, the first exception aborts. *)
Fixpoint comprehension {A B} (f : A → result B) (xs : list A) : result (list B) :=
  match xs with
  | [] => Ok []
  | x :: xs' => y ← f x; ys ← comprehension f xs'; Ok (y :: ys)
  end.

(** ** Python truthiness *)

(** A float is falsy when it compares equal to zero (so [0.0] and [-0.0]
    are falsy and a NaN is truthy). *)
Definition float_truthy (x : float) : bool := negb (PrimFloat.eqb x 0%float).

(** A string is falsy when it is empty. *)
Definition str_truthy (s : string) : bool :=
  match s with
  | EmptyString => false
  | String _ _ => true
  end.

(** A value that is a string or [None]: [None] is falsy. *)
Definition opt_truthy (o : option string) : bool :=
  match o with
  | Some s => str_truthy s
  | None => false
  end.

Definition list_truthy {A} (l : list A) : bool :=
  match l with
  | [] => false
  | _ :: _ => true
  end.

(** ** Calendar arithmetic ([datetime])

    A naive [datetime] is a wall-clock count of seconds since
    1970-01-01T00:00:00; the proleptic Gregorian calendar gives its
    fields. *)

Definition civil_from_days (z : Z) : Z * Z * Z :=
  let z := z + 719468 in
  let era := z / 146097 in
  let doe := z - era * 146097 in
  let yoe := (doe - doe / 1460 + doe / 36524 - doe / 146096) / 365 in
  let y := yoe + era * 400 in
  let doy := doe - (365 * yoe + yoe / 4 - yoe / 100) in
  let mp := (5 * doy + 2) / 153 in
  let d := doy - (153 * mp + 2) / 5 + 1 in
  let m := if mp <? 10 then mp + 3 else mp - 9 in
  (if m <=? 2 then y + 1 else y, m, d).

Definition days_from_civil (y m d : Z) : Z :=
  let y := if m <=? 2 then y - 1 else y in
  let era := y / 400 in
  let yoe := y - era * 400 in
  let doy := (153 * (if 2 <? m then m - 3 else m + 9) + 2) / 5 + d - 1 in
  let doe := yoe * 365 + yoe / 4 - yoe / 100 + doy in
  era * 146097 + doe - 719468.

Definition dt_year (t : Z) : Z := (civil_from_days (t / 86400)).1.1.
Definition dt_month (t : Z) : Z := (civil_from_days (t / 86400)).1.2.
Definition dt_day (t : Z) : Z := (civil_from_days (t / 86400)).2.
Definition dt_hour (t : Z) : Z := (t mod 86400) / 3600.
Definition dt_minute (t : Z) : Z := (t mod 3600) / 60.
Definition dt_second (t : Z) : Z := t mod 60.

Definition digit (n : Z) : ascii := ascii_of_nat (48 + Z.to_nat (n mod 10)).
Definition pad2 (n : Z) : string := String (digit (n / 10)) (String (digit n) "").
Definition pad4 (n : Z) : string := pad2 (n / 100) +:+ pad2 n.

(** One conversion specification of [strftime]; the program uses [%Y],
    [%m], [%d], [%H] and [%M]. *)
Definition strftime_directive (c : ascii) (t : Z) : option string :=
  if decide (c = "Y"%char) then Some (pad4 (dt_year t))
  else if decide (c = "m"%char) then Some (pad2 (dt_month t))
  else if decide (c = "d"%char) then Some (pad2 (dt_day t))
  else if decide (c = "H"%char) then Some (pad2 (dt_hour t))
  else if decide (c = "M"%char) then Some (pad2 (dt_minute t))
  else if decide (c = "S"%char) then Some (pad2 (dt_second t))
  else if decide (c = "%"%char) then Some "%"
  else None.

(** [dt.strftime(fmt)]. Ordinary characters are copied; a conversion
    specification outside the ones above is copied unchanged. *)
Fixpoint strftime (fmt : string) (t : Z) : string :=
  match fmt with
  | EmptyString => ""
  | String c rest =>
      if decide (c = "%"%char) then
        match rest with
        | EmptyString => "%"
        | String c' rest' =>
            match strftime_directive c' t with
            | Some s => s +:+ strftime rest' t
            | None => String c (String c' (strftime rest' t))
            end
        end
      else String c (strftime rest t)
  end.

(** No conversion specification in a string. *)
Fixpoint percent_free (s : string) : bool :=
  match s with
  | EmptyString => true
  | String c rest => if decide (c = "%"%char) then false else percent_free rest
  end.

(** [dt.isoformat()] of a naive datetime with no microseconds. *)
Definition isoformat (t : Z) : string := strftime "%Y-%m-%dT%H:%M:%S" t.

(** ** The maya library

    [maya.parse] (pendulum), [maya.when] (dateparser) and the zone
    database (pytz) are third-party code: the program is verified for every
    behaviour of theirs. *)

Class TimeLib := {
  (** [maya.parse(s)]: the epoch of the instant written in [s], or the
      parser's exception. *)
  maya_parse : string → result Z;
  (** [maya.when(s, timezone=zone)]: the epoch of the wall-clock time
      written in [s], read in [zone]. *)
  maya_when : string → string → result Z;
  (** [pytz.timezone(zone)]: the offset of [zone] from UTC, in seconds
      east, at a UTC instant. *)
  utcoffset : string → Z → result Z;
}.

(** [MayaDT.datetime(to_timezone=...)]: the wall clock of the instant, in
    the zone when one is given and in UTC otherwise. *)
Definition datetime `{TimeLib} (epoch : Z) (to_timezone : option string) : result Z :=
  match to_timezone with
  | Some zone =>
      if str_truthy zone then off ← utcoffset zone epoch; Ok (epoch + off)
      else Ok epoch
  | None => Ok epoch
  end.

(** [MayaDT.iso8601()]: ['{}Z'.format(dt.isoformat())] on the naive UTC
    datetime. *)
Definition iso8601 (epoch : Z) : string := isoformat epoch +:+ "Z".

(** [maya.MayaInterval(start, end)], as in maya's [core.py]: the
    constructor refuses an interval that ends before it starts,
    [if start > end: raise ValueError(...)], and membership is
    [self.start <= dt < self.end]. *)
Record MayaInterval := { start : Z; end_ : Z }.

Definition MayaInterval_init (start_ stop : Z) : result MayaInterval :=
  if start_ >? stop then Raise (ValueError "MayaInterval cannot end before it starts")
  else Ok {| start := start_; end_ := stop |}.

Definition contains_dt (i : MayaInterval) (dt : Z) : bool :=
  (start i <=? dt) && (dt <? end_ i).

(** ** Data *)

(** One element of [metrics]: a consumption reading of the metering API. *)
Record metric := {
  interval_start : string;
  consumption : float;
}.

(** One element of [agile_unit_rates]. *)
Record rate_point := {
  valid_from : string;
  value_inc_vat : float;
}.

(** [rate_data[series]]. A key that the dictionary may lack is an option:
    the electricity catalog has no [unit_rate] and no [conversion_factor],
    the gas catalog has none of the time-of-use and agile keys.
    [conversion_factor] is [None] both when the key is absent and when its
    value is Python's [None] ([rate_data.get('conversion_factor', None)]
    does not tell them apart). The value of [unit_rate_zone] is a string or
    Python's [None]. *)
Record rate_catalog := {
  standing_charge : option float;
  unit_rate : option float;
  unit_rate_high : option float;
  unit_rate_low : option float;
  unit_rate_low_start : option string;
  unit_rate_low_end : option string;
  unit_rate_zone : option (option string);
  conversion_factor : option float;
  agile_standing_charge : option float;
  agile_unit_rates : option (list rate_point);
}.

(** The [tags] dictionary of a point. *)
Record tag_set := {
  tag_active_rate : string;
  tag_time_of_day : string;
  tag_account_name : option string;
}.

(** One element of [measurements], the batch given to [write_points]. *)
Record point := {
  pt_measurement : string;
  pt_tags : tag_set;
  pt_time : string;
  pt_fields : gmap string float;
}.

(** ** [store_series] *)

Section store_series.
Context `{TimeLib}.
Context (series : string) (account_name : option string) (rate_data : rate_catalog).

Definition agile_data : list rate_point := default [] (agile_unit_rates rate_data).

(** [{point['valid_from']: point['value_inc_vat'] for point in agile_data}]:
    a later point replaces an earlier one with the same key. *)
Definition agile_rates : gmap string float :=
  foldl (λ d p, <[valid_from p := value_inc_vat p]> d) ∅ agile_data.

(** [rate_data[rate]], for the keys that hold a unit rate. *)
Definition rate_data_rate (rate : string) : result float :=
  subscript rate
    (if decide (rate = "unit_rate") then unit_rate rate_data
     else if decide (rate = "unit_rate_high") then unit_rate_high rate_data
     else if decide (rate = "unit_rate_low") then unit_rate_low rate_data
     else None).

Definition active_rate_field (m : metric) : result string :=
  if decide (series = "gas") then Ok "unit_rate"
  else
    zone ← subscript "unit_rate_zone" (unit_rate_zone rate_data);
    match zone with
    | None => Ok "unit_rate_high"
    | Some low_zone =>
        if negb (str_truthy low_zone) then Ok "unit_rate_high"
        else
          low_start_str ← subscript "unit_rate_low_start" (unit_rate_low_start rate_data);
          low_end_str ← subscript "unit_rate_low_end" (unit_rate_low_end rate_data);
          measurement_at ← maya_parse (interval_start m);
          local ← datetime measurement_at (Some low_zone);
          low_start ← maya_when (strftime ("%Y-%m-%dT" +:+ low_start_str) local) low_zone;
          local ← datetime measurement_at (Some low_zone);
          low_end ← maya_when (strftime ("%Y-%m-%dT" +:+ low_end_str) local) low_zone;
          low_period ← MayaInterval_init low_start low_end;
          Ok (if contains_dt low_period measurement_at
              then "unit_rate_low" else "unit_rate_high")
    end.

Definition fields_for_measurement (m : metric) : result (gmap string float) :=
  let consumption :=
    match conversion_factor rate_data with
    | Some factor =>
        if float_truthy factor then (consumption m * factor)%float
        else consumption m
    | None => consumption m
    end in
  rate ← active_rate_field m;
  rate_cost ← rate_data_rate rate;
  let cost := (consumption * rate_cost)%float in
  charge ← subscript "standing_charge" (standing_charge rate_data);
  let standing_charge := (charge / 48)%float in
  let fields : gmap string float :=
    <["rate" := rate_cost]>
      (<["total_cost" := (cost + standing_charge)%float]>
         (<["cost" := cost]> (<["consumption" := consumption]> ∅))) in
  if list_truthy agile_data then
    charge ← subscript "agile_standing_charge" (agile_standing_charge rate_data);
    let agile_standing_charge := (charge / 48)%float in
    at_ ← maya_parse (interval_start m);
    fallback ← rate_data_rate rate;
    let agile_unit_rate := default fallback (agile_rates !! iso8601 at_) in
    let agile_cost := (agile_unit_rate * consumption)%float in
    Ok (<["agile_total_cost" := (agile_cost + agile_standing_charge)%float]>
          (<["agile_cost" := agile_cost]>
             (<["agile_rate" := agile_unit_rate]> fields)))
  else Ok fields.

Definition tags_for_measurement (m : metric) : result tag_set :=
  period ← maya_parse (interval_start m);
  utc ← datetime period None;
  let time := strftime "%H:%M" utc in
  rate ← active_rate_field m;
  Ok {| tag_active_rate := rate;
        tag_time_of_day := time;
        tag_account_name := account_name |}.

(** The batch that [store_series] hands to [connection.write_points]. *)
Definition store_series (metrics : list metric) : result (list point) :=
  comprehension
    (λ m,
       tags ← tags_for_measurement m;
       fields ← fields_for_measurement m;
       Ok {| pt_measurement := series;
             pt_tags := tags;
             pt_time := interval_start m;
             pt_fields := fields |})
    metrics.
End store_series.

(** ** The outside world

    The program talks to the provider's HTTP API, to the terminal
    ([click.echo]) and to the time-series database. What it does there is
    recorded, in order, as a list of events; what the world answers is
    given by a [world]. *)

Record request := {
  url : string;
  params : gmap string string;
  auth : string;
}.

(** The JSON body of a paginated answer. [results] is [None] when the key
    is absent ([data.get('results', [])]); [next] is [None] when the key is
    absent ([data['next']] raises) and [Some None] when it is [null]. *)
Record page_data (A : Type) := {
  results : option (list A);
  next : option (option string);
}.
Arguments results {A} _.
Arguments next {A} _.

Inductive event :=
| HttpGet (rq : request)
| Echo (message : string)
| WritePoints (batch : list point).

(** The answers of the world: the consumption end points serve readings,
    the tariff end points serve rates; an answer that
    [response.raise_for_status()] refuses is a [Raise]. *)
Record world := {
  consumption_api : request → result (page_data metric);
  rates_api : request → result (page_data rate_point);
  influx_write : list point → result unit;
}.

(** A computation with effects: it extends the list of events, and
    returns or raises. *)
Definition IO (A : Type) : Type := list event → result A * list event.

#[global] Instance IO_ret : MRet IO := λ A a tr, (Ok a, tr).
#[global] Instance IO_bind : MBind IO :=
  λ A B f m tr,
    match m tr with
    | (Ok a, tr') => f a tr'
    | (Raise e, tr') => (Raise e, tr')
    end.

Definition emit (e : event) : IO unit := λ tr, (Ok tt, tr ++ [e]).
Definition lift {A} (r : result A) : IO A := λ tr, (r, tr).
Definition raise {A} (e : exn) : IO A := lift (Raise e).

(** Python's [int(s)] and [float(s)], and urllib's
    [parse.parse_qs(parse.urlparse(u).query)['page'][0]]. *)
Class PyLib := {
  py_int : string → result Z;
  py_float : string → result float;
  query_page : string → result string;
}.

(** [requests.get(url, params=args, auth=(api_key, ''))] followed by
    [raise_for_status()] and [json()]. *)
Definition requests_get {A} (api : request → result (page_data A))
    (rq : request) : IO (page_data A) :=
  _ ← emit (HttpGet rq); lift (api rq).

Definition period_args (from_date to_date : string) : gmap string string :=
  <["period_to" := to_date]> (<["period_from" := from_date]> ∅).

(** [args], with [args['page'] = page] when [page] is truthy. *)
Definition page_args (from_date to_date : string) (page : option string)
    : gmap string string :=
  match page with
  | Some p =>
      if str_truthy p then <["page" := p]> (period_args from_date to_date)
      else period_args from_date to_date
  | None => period_args from_date to_date
  end.

(** ** [retrieve_paginated_data]

    [depth] is the number of nested calls that the interpreter still
    allows (its recursion limit). *)
Fixpoint retrieve_paginated_data `{PyLib} {A} (depth : nat)
    (api : request → result (page_data A))
    (api_key url_ from_date to_date : string) (page : option string)
    : IO (list A) :=
  match depth with
  | O => raise RecursionError
  | S depth' =>
      let args := page_args from_date to_date page in
      data ← requests_get api {| url := url_; params := args; auth := api_key |};
      let results_ := default [] (results data) in
      next_ ← lift (subscript "next" (next data));
      if opt_truthy next_ then
        next_page ← lift (query_page (default "" next_));
        more ← retrieve_paginated_data depth' api api_key url_ from_date to_date
                 (Some next_page);
        mret (results_ ++ more)
      else mret results_
  end.

(** ** [get_latest_value_inc_vat] *)

Definition get_latest_value_inc_vat (w : world)
    (from_iso to_iso e_sc_url api_key : string) : IO float :=
  data ← requests_get (rates_api w)
           {| url := e_sc_url; params := period_args from_iso to_iso; auth := api_key |};
  match default [] (results data) with
  | first :: _ => mret (value_inc_vat first)
  | [] => raise IndexError
  end.

(** ** Configuration ([ConfigParser])

    The parsed configuration file: section, then option, then value, as
    [ConfigParser] holds them once defaults and interpolation are
    resolved. *)

Definition config_get (config : gmap string (gmap string string))
    (section option_ : string) : option string :=
  config !! section ≫= λ s, s !! option_.

(** [config.get(section, option)] without a fallback. *)
Definition config_get_required (config : gmap string (gmap string string))
    (section option_ : string) : result string :=
  match config !! section with
  | None => Raise (NoSectionError section)
  | Some s =>
      match s !! option_ with
      | None => Raise (NoOptionError option_ section)
      | Some v => Ok v
      end
  end.

Definition ascii_lower (c : ascii) : ascii :=
  let n := nat_of_ascii c in
  if (65 <=? n)%nat && (n <=? 90)%nat then ascii_of_nat (n + 32) else c.

Fixpoint lower (s : string) : string :=
  match s with
  | EmptyString => EmptyString
  | String c rest => String (ascii_lower c) (lower rest)
  end.

(** [ConfigParser.BOOLEAN_STATES]. *)
Definition convert_to_boolean (value : string) : result bool :=
  let v := lower value in
  if decide (v = "1" ∨ v = "yes" ∨ v = "true" ∨ v = "on") then Ok true
  else if decide (v = "0" ∨ v = "no" ∨ v = "false" ∨ v = "off") then Ok false
  else Raise (ValueError ("Not a boolean: " +:+ value)).

Section config.
Context `{PyLib}.
Context (config : gmap string (gmap string string)).

Definition getint (section option_ : string) (fallback : Z) : result Z :=
  match config_get config section option_ with
  | Some v => py_int v
  | None => Ok fallback
  end.

Definition getfloat (section option_ : string) (fallback : float) : result float :=
  match config_get config section option_ with
  | Some v => py_float v
  | None => Ok fallback
  end.

Definition getboolean (section option_ : string) (fallback : bool) : result bool :=
  match config_get config section option_ with
  | Some v => convert_to_boolean v
  | None => Ok fallback
  end.

(** The dictionary [rate_data['electricity']] of [cmd]. *)
Definition electricity_rate_data (timezone : string)
    (e_retrieved_standing_charge : float) : result rate_catalog :=
  charge ← getfloat "electricity" "standing_charge" e_retrieved_standing_charge;
  high ← getfloat "electricity" "unit_rate_high" 0%float;
  low ← getfloat "electricity" "unit_rate_low" 0%float;
  agile_charge ← getfloat "electricity" "agile_standing_charge"
                   e_retrieved_standing_charge;
  Ok {| standing_charge := Some charge;
        unit_rate := None;
        unit_rate_high := Some high;
        unit_rate_low := Some low;
        unit_rate_low_start :=
          Some (default "00:00" (config_get config "electricity" "unit_rate_low_start"));
        unit_rate_low_end :=
          Some (default "00:00" (config_get config "electricity" "unit_rate_low_end"));
        unit_rate_zone := Some (Some timezone);
        conversion_factor := None;
        agile_standing_charge := Some agile_charge;
        agile_unit_rates := Some [] |}.

(** The dictionary [rate_data['gas']] of [cmd]. The options
    [meter_type], [volume_correction_factor] and [calorific_value] fall
    back to the numbers [1], [1.02264] and [40]. *)
Definition gas_rate_data (g_meter_type g_vcf g_cv : option string)
    (g_retrieved_standing_charge g_unit_cost : float) : result rate_catalog :=
  charge ← getfloat "gas" "standing_charge" g_retrieved_standing_charge;
  rate ← getfloat "gas" "unit_rate" g_unit_cost;
  meter_type ← from_option py_int (Ok 1) g_meter_type;
  factor ←
    (if 1 <? meter_type then
       vcf ← from_option py_float (Ok 1.02264%float) g_vcf;
       cv ← from_option py_float (Ok 40%float) g_cv;
       Ok (Some (vcf * cv / 3.6)%float)
     else Ok None);
  Ok {| standing_charge := Some charge;
        unit_rate := Some rate;
        unit_rate_high := None;
        unit_rate_low := None;
        unit_rate_low_start := None;
        unit_rate_low_end := None;
        unit_rate_zone := None;
        conversion_factor := factor;
        agile_standing_charge := None;
        agile_unit_rates := None |}.
End config.

(** An f-string field: [None] is written [None]. *)
Definition fstr (o : option string) : string := default "None" o.

Definition api_root : string := "https://api.octopus.energy/v1/".

(** ** [cmd] *)

Section cmd.
Context `{TimeLib} `{PyLib}.
Context (w : world) (recursion_limit : nat).

(** [store_series]: the batch is built, then written. *)
Definition store_series_io (series : string) (account_name : option string)
    (metrics : list metric) (rate_data : rate_catalog) : IO unit :=
  batch ← lift (store_series series account_name rate_data metrics);
  _ ← emit (WritePoints batch);
  lift (influx_write w batch).

Definition cmd (config : gmap string (gmap string string))
    (from_date to_date : string) : IO unit :=
  _ ← lift (getint config "influxdb" "port" 8086);
  api_key ← lift (config_get_required config "octopus" "api_key");
  let account_name := config_get config "octopus" "account_name" in
  if negb (str_truthy api_key) then raise (ClickException "No Octopus API key set")
  else
  let timezone :=
    default "Europe/London" (config_get config "electricity" "unit_rate_time_zone") in
  from_ ← lift (maya_when from_date timezone);
  let from_iso := iso8601 from_ in
  to_ ← lift (maya_when to_date timezone);
  let to_iso := iso8601 to_ in
  let e_mpan := config_get config "electricity" "mpan" in
  let e_serial := config_get config "electricity" "serial_number" in
  if negb (opt_truthy e_mpan) || negb (opt_truthy e_serial)
  then raise (ClickException "No electricity meter identifiers")
  else
  let e_url := api_root +:+ "electricity-meter-points/" +:+ fstr e_mpan
               +:+ "/meters/" +:+ fstr e_serial +:+ "/consumption/" in
  let e_product_code :=
    default "AGILE-FLEX-22-11-25" (config_get config "electricity" "product_code") in
  let e_tariff_code :=
    default "E-1R-AGILE-FLEX-22-11-25-C" (config_get config "electricity" "tariff_code") in
  let e_tariff := api_root +:+ "products/" +:+ e_product_code
                  +:+ "/electricity-tariffs/" +:+ e_tariff_code in
  let agile_url := e_tariff +:+ "/standard-unit-rates/" in
  let e_sc_url := e_tariff +:+ "/standing-charges/" in
  e_retrieved_standing_charge ← get_latest_value_inc_vat w from_iso to_iso e_sc_url api_key;
  g_ignore ← lift (getboolean config "gas" "ignore" false);
  let g_mprn := config_get config "gas" "mprn" in
  let g_serial := config_get config "gas" "serial_number" in
  let g_meter_type := config_get config "gas" "meter_type" in
  let g_vcf := config_get config "gas" "volume_correction_factor" in
  let g_cv := config_get config "gas" "calorific_value" in
  gas ←
    (if (negb (opt_truthy g_mprn) || negb (opt_truthy g_serial)) && negb g_ignore
     then raise (ClickException "No gas meter identifiers")
     else if negb g_ignore then
       let g_product_code :=
         default "VAR-22-10-01" (config_get config "gas" "product_code") in
       let g_tariff_code :=
         default "G-1R-VAR-22-10-01-C" (config_get config "gas" "tariff_code") in
       let g_url := api_root +:+ "gas-meter-points/" +:+ fstr g_mprn
                    +:+ "/meters/" +:+ fstr g_serial +:+ "/consumption/" in
       let g_tariff := api_root +:+ "products/" +:+ g_product_code
                       +:+ "/gas-tariffs/" +:+ g_tariff_code in
       let g_sc_url := g_tariff +:+ "/standing-charges/" in
       g_retrieved_standing_charge ←
         get_latest_value_inc_vat w from_iso to_iso g_sc_url api_key;
       let g_unit_url := g_tariff +:+ "/standard-unit-rates/" in
       g_unit_cost ← get_latest_value_inc_vat w from_iso to_iso g_unit_url api_key;
       mret (Some (g_url, g_retrieved_standing_charge, g_unit_cost))
     else mret None);
  electricity ← lift (electricity_rate_data config timezone e_retrieved_standing_charge);
  gas_data ←
    match gas with
    | Some (g_url, g_retrieved_standing_charge, g_unit_cost) =>
        rd ← lift (gas_rate_data config g_meter_type g_vcf g_cv
                     g_retrieved_standing_charge g_unit_cost);
        mret (Some (g_url, rd))
    | None => mret None
    end;
  _ ← emit (Echo ("Retrieving electricity data for " +:+ from_iso
                  +:+ " until " +:+ to_iso +:+ "..."));
  e_consumption ← retrieve_paginated_data recursion_limit (consumption_api w)
                    api_key e_url from_iso to_iso None;
  _ ← emit (Echo (" " +:+ pretty (length e_consumption) +:+ " readings."));
  _ ← emit (Echo ("Retrieving Agile rates for " +:+ from_iso
                  +:+ " until " +:+ to_iso +:+ "..."));
  agile ← retrieve_paginated_data recursion_limit (rates_api w)
            api_key agile_url from_iso to_iso None;
  let electricity :=
    {| standing_charge := standing_charge electricity;
       unit_rate := unit_rate electricity;
       unit_rate_high := unit_rate_high electricity;
       unit_rate_low := unit_rate_low electricity;
       unit_rate_low_start := unit_rate_low_start electricity;
       unit_rate_low_end := unit_rate_low_end electricity;
       unit_rate_zone := unit_rate_zone electricity;
       conversion_factor := conversion_factor electricity;
       agile_standing_charge := agile_standing_charge electricity;
       agile_unit_rates := Some agile |} in
  _ ← emit (Echo (" " +:+ pretty (length agile) +:+ " rates."));
  _ ← store_series_io "electricity" account_name e_consumption electricity;
  match gas_data with
  | Some (g_url, rd) =>
      _ ← emit (Echo ("Retrieving gas data for " +:+ from_iso
                      +:+ " until " +:+ to_iso +:+ "..."));
      g_consumption ← retrieve_paginated_data recursion_limit (consumption_api w)
                        api_key g_url from_iso to_iso None;
      _ ← emit (Echo (" " +:+ pretty (length g_consumption) +:+ " readings."));
      store_series_io "gas" account_name g_consumption rd
  | None => mret tt
  end.
End cmd.

(** ** A reference library

    One instance of [TimeLib] and [PyLib], on which the program runs on
    concrete inputs. It reads the timestamps that the provider's API
    writes ([2023-07-01T00:30:00+01:00], [2023-01-01T00:00:00Z]), knows the
    zones UTC and Europe/London (with the summer-time rule in force since
    1996: from the last Sunday of March to the last Sunday of October,
    switching at 01:00 UTC) and places a wall-clock time in a zone as
    pytz's [localize] does. *)

Module RefLib.

Definition digit_val (c : ascii) : option Z :=
  let n := nat_of_ascii c in
  if (48 <=? n)%nat && (n <=? 57)%nat then Some (Z.of_nat n - 48) else None.

Fixpoint read_digits (n : nat) (acc : Z) (s : string) : option (Z * string) :=
  match n with
  | O => Some (acc, s)
  | S n' =>
      match s with
      | String c rest => d ← digit_val c; read_digits n' (acc * 10 + d) rest
      | EmptyString => None
      end
  end.

Definition expect (c : ascii) (s : string) : option string :=
  match s with
  | String c' rest => if decide (c = c') then Some rest else None
  | EmptyString => None
  end.

Definition days_in_month (y m : Z) : Z :=
  if m =? 2 then
    if ((y mod 4 =? 0) && negb (y mod 100 =? 0)) || (y mod 400 =? 0) then 29 else 28
  else if (m =? 4) || (m =? 6) || (m =? 9) || (m =? 11) then 30
  else 31.

(** [YYYY-MM-DDTHH:MM], with [:SS] when [seconds] is set: the wall-clock
    seconds and the rest of the input. *)
Definition read_datetime (seconds : bool) (s : string) : option (Z * string) :=
  '(y, s) ← read_digits 4 0 s;
  s ← expect "-" s;
  '(m, s) ← read_digits 2 0 s;
  s ← expect "-" s;
  '(d, s) ← read_digits 2 0 s;
  s ← expect "T" s;
  '(hh, s) ← read_digits 2 0 s;
  s ← expect ":" s;
  '(mm, s) ← read_digits 2 0 s;
  '(ss, s) ← (if seconds then s ← expect ":" s; read_digits 2 0 s else Some (0, s));
  if (1 <=? y) && (1 <=? m) && (m <=? 12) && (1 <=? d) && (d <=? days_in_month y m)
     && (hh <=? 23) && (mm <=? 59) && (ss <=? 59)
  then Some (days_from_civil y m d * 86400 + hh * 3600 + mm * 60 + ss, s)
  else None.

(** [Z], [+HH:MM] or [-HH:MM], to the end of the input. *)
Definition read_offset (s : string) : option Z :=
  match s with
  | String c rest =>
      if decide (c = "Z"%char) then (if decide (rest = "") then Some 0 else None)
      else
        sign ← (if decide (c = "+"%char) then Some 1
                else if decide (c = "-"%char) then Some (-1) else None);
        '(hh, s) ← read_digits 2 0 rest;
        s ← expect ":" s;
        '(mm, s) ← read_digits 2 0 s;
        if decide (s = "") then Some (sign * (hh * 3600 + mm * 60)) else None
  | EmptyString => None
  end.

Definition parse (s : string) : result Z :=
  match read_datetime true s with
  | Some (t, rest) =>
      match read_offset rest with
      | Some off => Ok (t - off)
      | None => Raise (ParserError s)
      end
  | None => Raise (ParserError s)
  end.

(** The day (since the epoch) of the last Sunday of a 31-day month;
    1970-01-01 was a Thursday. *)
Definition last_sunday (y m : Z) : Z :=
  let d := days_from_civil y m 31 in
  d - (d + 4) mod 7.

Definition london_offset (t : Z) : Z :=
  let y := dt_year t in
  if (last_sunday y 3 * 86400 + 3600 <=? t) && (t <? last_sunday y 10 * 86400 + 3600)
  then 3600 else 0.

Definition zone_offset (zone : string) (t : Z) : result Z :=
  if decide (zone = "UTC") then Ok 0
  else if decide (zone = "Europe/London") then Ok (london_offset t)
  else Raise (UnknownTimeZoneError zone).

(** [tz.localize(dt)] with [is_dst=False]: standard time when the wall
    clock reads it twice or never. *)
Definition localize (zone : string) (l : Z) : result Z :=
  std ← zone_offset zone l;
  if std =? 0 then Ok l
  else
    dst ← zone_offset zone (l - 3600);
    if dst =? 3600 then Ok (l - 3600) else Ok l.

Definition when (s zone : string) : result Z :=
  match read_datetime false s with
  | Some (l, rest) =>
      if decide (rest = "") then localize zone l
      else Raise (ValueError "invalid datetime input specified.")
  | None => Raise (ValueError "invalid datetime input specified.")
  end.

#[export] Instance time_lib : TimeLib :=
  {| maya_parse := parse; maya_when := when; utcoffset := zone_offset |}.

Fixpoint read_number (acc : Z) (s : string) : option Z :=
  match s with
  | EmptyString => Some acc
  | String c rest => d ← digit_val c; read_number (acc * 10 + d) rest
  end.

(** [int(s)] on an optional sign and decimal digits. *)
Definition int_of_string (s : string) : result Z :=
  let bad := Raise (ValueError ("invalid literal for int() with base 10: " +:+ s)) in
  match s with
  | EmptyString => bad
  | String c rest =>
      if decide (c = "-"%char) then
        (if decide (rest = "") then bad
         else from_option (λ n, Ok (- n)) bad (read_number 0 rest))
      else from_option Ok bad (read_number 0 s)
  end.

(** [?page=...] or [&page=...], up to the next [&] or [#]. *)
Fixpoint until_delimiter (s : string) : string :=
  match s with
  | EmptyString => ""
  | String c rest =>
      if decide (c = "&"%char ∨ c = "#"%char) then ""
      else String c (until_delimiter rest)
  end.

Fixpoint find_page (s : string) : result string :=
  match s with
  | EmptyString => Raise (KeyError "page")
  | String c rest =>
      if decide (c = "?"%char ∨ c = "&"%char) then
        if String.prefix "page=" rest
        then Ok (until_delimiter (String.substring 5 (String.length rest - 5) rest))
        else find_page rest
      else find_page rest
  end.

(** [float(s)] is left out: the examples set no option read by
    [getfloat]. *)
#[export] Instance py_lib : PyLib :=
  {| py_int := int_of_string;
     py_float := λ s, Raise (ValueError ("could not convert string to float: " +:+ s));
     query_page := find_page |}.

End RefLib.

(** ** Notions of the specification *)

(** The bound of the rate window of a reading: the calendar date of the
    instant [at] in [zone], with the clock time [clock] written in place
    of its time of day, read back as a wall-clock time of [zone]. *)
Definition rate_window_bound `{TimeLib} (zone : string) (at_ : Z) (clock : string)
    : result Z :=
  off ← utcoffset zone at_;
  maya_when (strftime ("%Y-%m-%dT" +:+ clock) (at_ + off)) zone.

(** An instant written [HH:MM] on the wall clock of a zone. *)
Definition local_time_of_day `{TimeLib} (zone : string) (at_ : Z) : result string :=
  off ← utcoffset zone at_;
  Ok (pad2 (dt_hour (at_ + off)) +:+ ":" +:+ pad2 (dt_minute (at_ + off))).

(** The pages that the provider serves from [page] on, in the order in
    which they are fetched: each page but the last names its successor in
    [next]. *)
Inductive page_chain `{PyLib} {A} (api : request → result (page_data A))
    (api_key url_ from_date to_date : string)
    : option string → list (list A) → Prop :=
| page_chain_last page data :
    api {| url := url_; params := page_args from_date to_date page; auth := api_key |}
      = Ok data →
    (next data = Some None ∨ next data = Some (Some "")) →
    page_chain api api_key url_ from_date to_date page [default [] (results data)]
| page_chain_next page data link next_page pages :
    api {| url := url_; params := page_args from_date to_date page; auth := api_key |}
      = Ok data →
    next data = Some (Some link) →
    str_truthy link = true →
    query_page link = Ok next_page →
    page_chain api api_key url_ from_date to_date (Some next_page) pages →
    page_chain api api_key url_ from_date to_date page
      (default [] (results data) :: pages).

(** The first page, then the later pages in the reverse of the order in
    which they were fetched. *)
Definition reversed_page_order {A} (pages : list (list A)) : list A :=
  match pages with
  | [] => []
  | first :: later => first ++ concat (reverse later)
  end.

(** The consumption of a reading after the unit conversion. *)
Definition converted_consumption (rate_data : rate_catalog) (m : metric) : float :=
  match conversion_factor rate_data with
  | Some factor =>
      if float_truthy factor then (consumption m * factor)%float else consumption m
  | None => consumption m
  end.

(** The four fields that every point carries, for a unit rate
    [rate_cost] and a daily standing charge [charge]. *)
Definition base_fields (rate_data : rate_catalog) (m : metric)
    (rate_cost charge : float) : gmap string float :=
  let consumption := converted_consumption rate_data m in
  <["rate" := rate_cost]>
    (<["total_cost" := (consumption * rate_cost + charge / 48)%float]>
       (<["cost" := (consumption * rate_cost)%float]>
          (<["consumption" := consumption]> ∅))).

(** ** Notions for the outside world *)

(** A chain of pages that breaks: [served] pages are fetched, and the next
    request fails with [e], because the provider refuses it, because the
    answer has no [next] key, or because the link in [next] names no
    page. *)
Inductive page_chain_fails `{PyLib} {A} (api : request → result (page_data A))
    (api_key url_ from_date to_date : string)
    : option string → nat → exn → Prop :=
| page_chain_fails_request page e :
    api {| url := url_; params := page_args from_date to_date page; auth := api_key |}
      = Raise e →
    page_chain_fails api api_key url_ from_date to_date page 0 e
| page_chain_fails_next page data :
    api {| url := url_; params := page_args from_date to_date page; auth := api_key |}
      = Ok data →
    next data = None →
    page_chain_fails api api_key url_ from_date to_date page 0 (KeyError "next")
| page_chain_fails_link page data link e :
    api {| url := url_; params := page_args from_date to_date page; auth := api_key |}
      = Ok data →
    next data = Some (Some link) →
    str_truthy link = true →
    query_page link = Raise e →
    page_chain_fails api api_key url_ from_date to_date page 0 e
| page_chain_fails_later page data link next_page served e :
    api {| url := url_; params := page_args from_date to_date page; auth := api_key |}
      = Ok data →
    next data = Some (Some link) →
    str_truthy link = true →
    query_page link = Ok next_page →
    page_chain_fails api api_key url_ from_date to_date (Some next_page) served e →
    page_chain_fails api api_key url_ from_date to_date page (S served) e.

(** A request of one fetch: to the URL of the fetch, with its API key and
    its period. *)
Definition fetch_request (api_key url_ from_date to_date : string) (e : event) : Prop :=
  ∃ rq, e = HttpGet rq ∧ url rq = url_ ∧ auth rq = api_key
        ∧ params rq !! "period_from" = Some from_date
        ∧ params rq !! "period_to" = Some to_date.



(** ** Concrete inputs *)

Module Examples.
Export RefLib.

Definition reading (at_ : string) (kwh : float) : metric :=
  {| interval_start := at_; consumption := kwh |}.

(** An electricity catalog with a low-rate window, no agile rates. *)
Definition tou_rates (zone : option string) (low_start low_end : string)
    : rate_catalog :=
  {| standing_charge := Some 48%float;
     unit_rate := None;
     unit_rate_high := Some 20%float;
     unit_rate_low := Some 10%float;
     unit_rate_low_start := Some low_start;
     unit_rate_low_end := Some low_end;
     unit_rate_zone := Some zone;
     conversion_factor := None;
     agile_standing_charge := Some 24%float;
     agile_unit_rates := Some [] |}.

Definition with_agile (rates : list rate_point) (rate_data : rate_catalog)
    : rate_catalog :=
  {| standing_charge := standing_charge rate_data;
     unit_rate := unit_rate rate_data;
     unit_rate_high := unit_rate_high rate_data;
     unit_rate_low := unit_rate_low rate_data;
     unit_rate_low_start := unit_rate_low_start rate_data;
     unit_rate_low_end := unit_rate_low_end rate_data;
     unit_rate_zone := unit_rate_zone rate_data;
     conversion_factor := conversion_factor rate_data;
     agile_standing_charge := agile_standing_charge rate_data;
     agile_unit_rates := Some rates |}.

(** A gas catalog. *)
Definition gas_rates (factor : option float) : rate_catalog :=
  {| standing_charge := Some 48%float;
     unit_rate := Some 5%float;
     unit_rate_high := None;
     unit_rate_low := None;
     unit_rate_low_start := None;
     unit_rate_low_end := None;
     unit_rate_zone := None;
     conversion_factor := factor;
     agile_standing_charge := None;
     agile_unit_rates := None |}.

(** A configuration file with the API key and the electricity meter,
    and nothing else. *)
Definition minimal_config : gmap string (gmap string string) :=
  {[ "octopus" := {[ "api_key" := "sk_live_key" ]};
     "electricity" := {[ "mpan" := "1200000000000"; "serial_number" := "21E0000000" ]} ]}.

Definition page_of (rq : request) : option string := params rq !! "page".

(** A consumption end point that serves three pages of one reading. *)
Definition three_pages (rq : request) : result (page_data metric) :=
  match page_of rq with
  | None =>
      Ok {| results := Some [reading "2023-01-01T00:00:00Z" 1%float];
            next := Some (Some (url rq +:+ "?page=2&period_from=2023-01-01T00:00:00Z")) |}
  | Some p =>
      if decide (p = "2") then
        Ok {| results := Some [reading "2023-01-01T00:30:00Z" 2%float];
              next := Some (Some (url rq +:+ "?page=3&period_from=2023-01-01T00:00:00Z")) |}
      else if decide (p = "3") then
        Ok {| results := Some [reading "2023-01-01T01:00:00Z" 3%float];
              next := Some None |}
      else Raise (HTTPError (url rq))
  end.

(** A tariff end point that serves one rate on one page. *)
Definition one_rate (rq : request) : result (page_data rate_point) :=
  Ok {| results := Some [ {| valid_from := "2023-01-01T00:00:00Z";
                             value_inc_vat := 48%float |} ];
        next := Some None |}.

Definition provider : world :=
  {| consumption_api := three_pages;
     rates_api := one_rate;
     influx_write := λ _, Ok tt |}.

(** A consumption end point that refuses every page but the first. *)
Definition second_page_refused (rq : request) : result (page_data metric) :=
  match page_of rq with
  | None =>
      Ok {| results := Some [reading "2023-01-01T00:00:00Z" 1%float];
            next := Some (Some (url rq +:+ "?page=2")) |}
  | Some _ => Raise (HTTPError (url rq))
  end.

(** [float(s)] on the decimals written with digits and at most one
    point, of at most 15 digits: the quotient of two integers that binary64
    holds exactly is the nearest float. Any other text is refused here. *)
Fixpoint split_point (s : string) : string * option string :=
  match s with
  | EmptyString => ("", None)
  | String c rest =>
      if decide (c = "."%char) then ("", Some rest)
      else let '(whole, fraction) := split_point rest in (String c whole, fraction)
  end.

Definition float_of_Z (n : Z) : float := PrimFloat.of_uint63 (Uint63.of_Z n).

Definition float_of_string (s : string) : result float :=
  let bad := Raise (ValueError ("could not convert string to float: " +:+ s)) in
  let '(whole, fraction) := split_point s in
  let digits := whole +:+ default "" fraction in
  if (0 <? String.length digits)%nat && (String.length digits <=? 15)%nat then
    match read_number 0 digits with
    | Some n =>
        Ok (float_of_Z n
            / float_of_Z (10 ^ Z.of_nat (String.length (default "" fraction))))%float
    | None => bad
    end
  else bad.

Definition decimal_lib : PyLib :=
  {| py_int := int_of_string; py_float := float_of_string; query_page := find_page |}.

(** [minimal_config] with gas ignored. *)
Definition gas_ignored_config : gmap string (gmap string string) :=
  <["gas" := {[ "ignore" := "yes" ]}]> minimal_config.

(** [minimal_config] with a tariff set for electricity and a second
    generation gas meter. *)
Definition tariff_config : gmap string (gmap string string) :=
  <["gas" := {[ "mprn" := "9000000000"; "serial_number" := "G4"; "meter_type" := "2" ]}]>
    (<["electricity" := {[ "mpan" := "1200000000000"; "serial_number" := "21E0000000";
                           "standing_charge" := "48.5"; "unit_rate_high" := "30.25";
                           "unit_rate_low" := "9.5"; "unit_rate_low_start" := "00:30";
                           "unit_rate_low_end" := "04:30" ]}]> minimal_config).

(** The points of a batch, none when the assembler raised. *)
Definition batch_of (r : result (list point)) : list point :=
  match r with
  | Ok batch => batch
  | Raise _ => []
  end.

Definition gas_reading : metric := reading "2023-01-01T00:00:00Z" 10%float.

(** An agile table that names 12:00 twice. *)
Definition agile_table : list rate_point :=
  [ {| valid_from := "2023-07-01T12:00:00Z"; value_inc_vat := 29.75%float |};
    {| valid_from := "2023-07-01T11:30:00Z"; value_inc_vat := 30.5%float |};
    {| valid_from := "2023-07-01T12:00:00Z"; value_inc_vat := 31.25%float |};
    {| valid_from := "2023-07-01T12:30:00Z"; value_inc_vat := 32.5%float |} ].

Definition agile_rate_data : rate_catalog :=
  with_agile agile_table (tou_rates (Some "Europe/London") "00:30" "04:30").

Definition endpoint : string :=
  "https://api.octopus.energy/v1/electricity-meter-points/1/meters/2/consumption/".

End Examples.

(** * Verification *)

(** ** Results *)

Lemma bind_Ok {A B} (m : result A) (f : A → result B) (b : B) :
  m ≫= f = Ok b ↔ ∃ a, m = Ok a ∧ f a = Ok b.
Proof.
  destruct m as [a|e]; simpl; split.
  - eauto.
  - by intros (a' & [= ->] & ?).
  - done.
  - by intros (a' & ? & _).
Qed.

Lemma bind_Raise {A B} (m : result A) (f : A → result B) (e : exn) :
  m = Raise e → m ≫= f = Raise e.
Proof. by intros ->. Qed.

Lemma subscript_Ok {A} key (o : option A) a : subscript key o = Ok a ↔ o = Some a.
Proof. destruct o; simpl; split; congruence. Qed.

Ltac inv_result :=
  repeat match goal with
  | H : _ ≫= _ = Ok _ |- _ => apply bind_Ok in H; destruct H as (? & ? & H)
  | H : subscript _ _ = Ok _ |- _ => apply subscript_Ok in H
  | H : Ok _ = Ok _ |- _ => injection H as H
  | H : Raise _ = Ok _ |- _ => discriminate H
  end.

(** ** Formatting *)

Lemma strftime_percent_free (s : string) (t : Z) :
  percent_free s = true → strftime s t = s.
Proof.
  induction s as [|c rest IH]; [done|]. simpl.
  case_decide; [done|]. intros Hrest. by rewrite IH.
Qed.

(** The format of a window bound, for a clock time with no conversion
    specification: the calendar date, then the clock time as it is
    configured. *)
Lemma strftime_date_clock (clock : string) (t : Z) :
  percent_free clock = true →
  strftime ("%Y-%m-%dT" +:+ clock) t
  = pad4 (dt_year t) +:+ "-" +:+ pad2 (dt_month t) +:+ "-" +:+ pad2 (dt_day t)
    +:+ "T" +:+ clock.
Proof.
  intros Hfree.
  change (strftime ("%Y-%m-%dT" +:+ clock) t)
    with (pad4 (dt_year t) +:+ "-" +:+ pad2 (dt_month t) +:+ "-" +:+ pad2 (dt_day t)
          +:+ "T" +:+ strftime clock t).
  by rewrite strftime_percent_free.
Qed.

Section resolver.
Context `{TimeLib}.

Lemma MayaInterval_init_Ok low_start low_end :
  low_start ≤ low_end →
  MayaInterval_init low_start low_end = Ok {| start := low_start; end_ := low_end |}.
Proof.
  intros Hle. unfold MayaInterval_init.
  destruct (Z.gtb_spec low_start low_end); [lia | done].
Qed.

Lemma MayaInterval_init_Raise low_start low_end :
  low_end < low_start →
  MayaInterval_init low_start low_end
    = Raise (ValueError "MayaInterval cannot end before it starts").
Proof.
  intros Hlt. unfold MayaInterval_init.
  destruct (Z.gtb_spec low_start low_end); [done | lia].
Qed.

Lemma contains_dt_spec i dt : contains_dt i dt = true ↔ start i ≤ dt < end_ i.
Proof. unfold contains_dt. rewrite andb_true_iff, Z.leb_le, Z.ltb_lt. done. Qed.

(** The resolver of an electricity series with a zone, in terms of the
    two bounds of the rate window. *)
Lemma active_rate_field_window rate_data m zone low_start_str low_end_str at_ :
  unit_rate_zone rate_data = Some (Some zone) →
  str_truthy zone = true →
  unit_rate_low_start rate_data = Some low_start_str →
  unit_rate_low_end rate_data = Some low_end_str →
  maya_parse (interval_start m) = Ok at_ →
  active_rate_field "electricity" rate_data m =
    (low_start ← rate_window_bound zone at_ low_start_str;
     low_end ← rate_window_bound zone at_ low_end_str;
     low_period ← MayaInterval_init low_start low_end;
     Ok (if contains_dt low_period at_ then "unit_rate_low" else "unit_rate_high")).
Proof.
  intros Hz Ht Hs He Hp. unfold active_rate_field, rate_window_bound, datetime.
  rewrite decide_False by done.
  rewrite Hz, Hs, He, Hp. simpl. rewrite Ht. simpl.
  destruct (utcoffset zone at_) as [off|e]; simpl; [|done].
  done.
Qed.
End resolver.

Import Examples.

Lemma comprehension_Forall2 {A B} (f : A → result B) xs ys :
  comprehension f xs = Ok ys ↔ Forall2 (λ x y, f x = Ok y) xs ys.
Proof.
  revert ys. induction xs as [|x xs IH]; intros ys; simpl.
  - split.
    + intros [= <-]. constructor.
    + by inversion 1.
  - split.
    + intros Hc. inv_result. subst ys. constructor; [done | by apply IH].
    + inversion 1 as [|? y ? ys' Hx Hxs]; subst.
      rewrite Hx. simpl. apply IH in Hxs. rewrite Hxs. done.
Qed.

Lemma comprehension_Raise {A B} (f : A → result B) xs x e :
  x ∈ xs → f x = Raise e → ∃ e', comprehension f xs = Raise e'.
Proof.
  intros Hin Hx. induction Hin as [x xs | x y xs _ IH]; simpl.
  - rewrite Hx. eauto.
  - destruct (f y); simpl; [|eauto].
    destruct IH as [e' ->]; [done | eauto].
Qed.

(** C6. A gas reading resolves to [unit_rate], whatever the catalog and
    the reading; an electricity reading whose catalog has a falsy
    [unit_rate_zone] resolves to [unit_rate_high]. *)
Theorem flat_rate_categories `{TimeLib} (rate_data : rate_catalog) (m : metric) :
  active_rate_field "gas" rate_data m = Ok "unit_rate" ∧
  (∀ zone,
     unit_rate_zone rate_data = Some zone → opt_truthy zone = false →
     active_rate_field "electricity" rate_data m = Ok "unit_rate_high").
Proof.
  split; [done|].
  intros zone Hz Hf. unfold active_rate_field.
  rewrite decide_False by done. rewrite Hz. simpl.
  destruct zone as [low_zone|]; [|done].
  simpl in Hf. by rewrite Hf.
Qed.

Lemma flat_rate_categories_witness :
  active_rate_field "gas" (gas_rates None) (reading "2023-01-01T00:00:00Z" 10%float)
    = Ok "unit_rate" ∧
  active_rate_field "electricity" (tou_rates (Some "") "00:30" "04:30")
    (reading "2023-01-01T00:00:00Z" 10%float) = Ok "unit_rate_high" ∧
  active_rate_field "electricity" (tou_rates None "00:30" "04:30")
    (reading "2023-01-01T00:00:00Z" 10%float) = Ok "unit_rate_high".
Proof.
  split; [|split].
  - apply (flat_rate_categories (gas_rates None)).
  - apply (flat_rate_categories (tou_rates (Some "") "00:30" "04:30") _)
      with (zone := Some ""); reflexivity.
  - apply (flat_rate_categories (tou_rates None "00:30" "04:30") _)
      with (zone := None); reflexivity.
Defined.

(** C1, as amended. For an electricity reading whose catalog has a truthy
    [unit_rate_zone], when the start of the rate window built for the
    reading's date in that zone is not after its end: the category is
    [unit_rate_low] exactly when [interval_start] is in the half-open
    window, and [unit_rate_high] otherwise; an instant equal to the start of
    a window that is not empty is inside, an instant equal to its end is
    outside. *)
Theorem low_rate_window `{TimeLib} (rate_data : rate_catalog) (m : metric)
    (zone low_start_str low_end_str : string) (at_ low_start low_end : Z) :
  unit_rate_zone rate_data = Some (Some zone) →
  str_truthy zone = true →
  unit_rate_low_start rate_data = Some low_start_str →
  unit_rate_low_end rate_data = Some low_end_str →
  maya_parse (interval_start m) = Ok at_ →
  rate_window_bound zone at_ low_start_str = Ok low_start →
  rate_window_bound zone at_ low_end_str = Ok low_end →
  low_start ≤ low_end →
  (active_rate_field "electricity" rate_data m = Ok "unit_rate_low"
     ↔ low_start ≤ at_ < low_end) ∧
  (active_rate_field "electricity" rate_data m = Ok "unit_rate_high"
     ↔ ¬ (low_start ≤ at_ < low_end)) ∧
  (at_ = low_start → low_start < low_end →
     active_rate_field "electricity" rate_data m = Ok "unit_rate_low") ∧
  (at_ = low_end →
     active_rate_field "electricity" rate_data m = Ok "unit_rate_high").
Proof.
  intros Hz Ht Hs He Hp Hls Hle Hord.
  rewrite (active_rate_field_window _ _ zone low_start_str low_end_str at_) by done.
  rewrite Hls, Hle. simpl. rewrite MayaInterval_init_Ok by done. simpl.
  pose proof (contains_dt_spec {| start := low_start; end_ := low_end |} at_) as Hc.
  simpl in Hc.
  destruct (contains_dt _ at_).
  - assert (low_start ≤ at_ < low_end) by (by apply Hc).
    repeat split; intros; try done; try lia.
  - assert (¬ (low_start ≤ at_ < low_end)) by (intros ?%Hc; done).
    repeat split; intros; try done; try lia.
Qed.

Lemma low_rate_window_witness :
  active_rate_field "electricity" (tou_rates (Some "Europe/London") "00:30" "04:30")
    (reading "2023-07-01T00:30:00+01:00" 1%float) = Ok "unit_rate_low"
  ∧ active_rate_field "electricity" (tou_rates (Some "Europe/London") "00:30" "04:30")
    (reading "2023-07-01T04:30:00+01:00" 1%float) = Ok "unit_rate_high".
Proof.
  split.
  - apply (low_rate_window (tou_rates (Some "Europe/London") "00:30" "04:30")
             (reading "2023-07-01T00:30:00+01:00" 1%float)
             "Europe/London" "00:30" "04:30" 1688167800 1688167800 1688182200);
      try (vm_compute; reflexivity); lia.
  - apply (low_rate_window (tou_rates (Some "Europe/London") "00:30" "04:30")
             (reading "2023-07-01T04:30:00+01:00" 1%float)
             "Europe/London" "00:30" "04:30" 1688182200 1688167800 1688182200);
      try (vm_compute; reflexivity); lia.
Defined.

(** C1, as stated, fails on a window whose clock times span midnight: the
    reading at noon is outside the window from 23:00 to 05:00 of its day,
    and no category is resolved for it. *)
Lemma midnight_spanning_window_resolves_nothing :
  let m := reading "2023-01-01T12:00:00Z" 1%float in
  let rate_data := tou_rates (Some "UTC") "23:00" "05:00" in
  maya_parse (interval_start m) = Ok 1672574400 ∧
  rate_window_bound "UTC" 1672574400 "23:00" = Ok 1672614000 ∧
  rate_window_bound "UTC" 1672574400 "05:00" = Ok 1672549200 ∧
  ¬ (1672614000 ≤ 1672574400 < 1672549200) ∧
  active_rate_field "electricity" rate_data m ≠ Ok "unit_rate_high" ∧
  active_rate_field "electricity" rate_data m
    = Raise (ValueError "MayaInterval cannot end before it starts").
Proof.
  vm_compute. repeat split; try done. intros [? ?]; done.
Qed.

Section assembler.
Context `{TimeLib}.
Context (series : string) (account_name : option string) (rate_data : rate_catalog).

(** Every point of the batch comes from the reading at its position. *)
Lemma store_series_points metrics batch :
  store_series series account_name rate_data metrics = Ok batch →
  Forall2 (λ m p,
    pt_measurement p = series ∧
    tags_for_measurement series account_name rate_data m = Ok (pt_tags p) ∧
    pt_time p = interval_start m ∧
    fields_for_measurement series rate_data m = Ok (pt_fields p)) metrics batch.
Proof.
  unfold store_series. intros Hc%comprehension_Forall2.
  eapply Forall2_impl; [exact Hc|].
  intros m p Hp. simpl in Hp. inv_result. subst p. simpl. done.
Qed.

Lemma store_series_point_of metrics batch p :
  store_series series account_name rate_data metrics = Ok batch →
  p ∈ batch →
  ∃ m, m ∈ metrics ∧
    tags_for_measurement series account_name rate_data m = Ok (pt_tags p) ∧
    pt_time p = interval_start m ∧
    fields_for_measurement series rate_data m = Ok (pt_fields p).
Proof.
  intros Hs%store_series_points Hp.
  apply list_elem_of_lookup in Hp as [i Hi].
  destruct (Forall2_lookup_r _ _ _ _ _ Hs Hi) as (m & Hm & _ & ? & ? & ?).
  exists m. split; [|done]. apply list_elem_of_lookup. eauto.
Qed.

Lemma fields_for_measurement_Ok m fields :
  fields_for_measurement series rate_data m = Ok fields →
  ∃ rate rate_cost charge,
    active_rate_field series rate_data m = Ok rate ∧
    rate_data_rate rate_data rate = Ok rate_cost ∧
    standing_charge rate_data = Some charge ∧
    ((agile_data rate_data = [] ∧ fields = base_fields rate_data m rate_cost charge) ∨
     (agile_data rate_data ≠ [] ∧
      ∃ agile_charge at_,
        agile_standing_charge rate_data = Some agile_charge ∧
        maya_parse (interval_start m) = Ok at_ ∧
        let agile_unit_rate :=
          default rate_cost (agile_rates rate_data !! iso8601 at_) in
        fields =
          <["agile_total_cost" :=
              (agile_unit_rate * converted_consumption rate_data m + agile_charge / 48)%float]>
            (<["agile_cost" := (agile_unit_rate * converted_consumption rate_data m)%float]>
               (<["agile_rate" := agile_unit_rate]>
                  (base_fields rate_data m rate_cost charge))))).
Proof.
  unfold fields_for_measurement. intros Hf.
  apply bind_Ok in Hf as (rate & Hrate & Hf).
  apply bind_Ok in Hf as (rate_cost & Hcost & Hf).
  apply bind_Ok in Hf as (charge & Hcharge%subscript_Ok & Hf).
  exists rate, rate_cost, charge. repeat (split; [done|]).
  destruct (agile_data rate_data) as [|pt pts] eqn:Hagile; simpl in Hf.
  - left. split; [done|]. by injection Hf as <-.
  - right. split; [done|].
    apply bind_Ok in Hf as (agile_charge & Hac%subscript_Ok & Hf).
    apply bind_Ok in Hf as (at_ & Hat & Hf).
    rewrite Hcost in Hf. simpl in Hf. injection Hf as <-.
    exists agile_charge, at_. done.
Qed.
End assembler.

(** ** The fields of a point *)

Section fields.
Context (rate_data : rate_catalog) (m : metric) (rate_cost charge : float).

Lemma base_fields_consumption :
  base_fields rate_data m rate_cost charge !! "consumption"
    = Some (converted_consumption rate_data m).
Proof. unfold base_fields. by simplify_map_eq. Qed.

Lemma base_fields_cost :
  base_fields rate_data m rate_cost charge !! "cost"
    = Some (converted_consumption rate_data m * rate_cost)%float.
Proof. unfold base_fields. by simplify_map_eq. Qed.

Lemma base_fields_total_cost :
  base_fields rate_data m rate_cost charge !! "total_cost"
    = Some (converted_consumption rate_data m * rate_cost + charge / 48)%float.
Proof. unfold base_fields. by simplify_map_eq. Qed.

Lemma base_fields_rate :
  base_fields rate_data m rate_cost charge !! "rate" = Some rate_cost.
Proof. unfold base_fields. by simplify_map_eq. Qed.

Lemma base_fields_dom :
  dom (base_fields rate_data m rate_cost charge)
    = ({[ "consumption"; "cost"; "total_cost"; "rate" ]} : gset string).
Proof. unfold base_fields. rewrite !dom_insert_L, dom_empty_L. set_solver. Qed.
End fields.

(** C2, as amended. For an electricity series with a truthy zone, when
    the start of the rate window of a reading is not before its end: if
    the start is strictly after the end, building the window raises
    [ValueError], no category is resolved and storing any series that holds
    the reading fails; if the two are equal (as with the default clock times
    00:00 and 00:00) nothing is raised, the window is empty and the category
    is [unit_rate_high]. *)
Theorem rate_window_not_before `{TimeLib} (rate_data : rate_catalog) (m : metric)
    (zone low_start_str low_end_str : string) (at_ low_start low_end : Z) :
  unit_rate_zone rate_data = Some (Some zone) →
  str_truthy zone = true →
  unit_rate_low_start rate_data = Some low_start_str →
  unit_rate_low_end rate_data = Some low_end_str →
  maya_parse (interval_start m) = Ok at_ →
  rate_window_bound zone at_ low_start_str = Ok low_start →
  rate_window_bound zone at_ low_end_str = Ok low_end →
  ¬ (low_start < low_end) →
  active_rate_field "electricity" rate_data m =
    (if decide (low_start = low_end) then Ok "unit_rate_high"
     else Raise (ValueError "MayaInterval cannot end before it starts")) ∧
  (low_end < low_start →
   ∀ account_name metrics, m ∈ metrics →
     ∃ e, store_series "electricity" account_name rate_data metrics = Raise e).
Proof.
  intros Hz Ht Hs He Hp Hls Hle Hord.
  assert (active_rate_field "electricity" rate_data m =
    (if decide (low_start = low_end) then Ok "unit_rate_high"
     else Raise (ValueError "MayaInterval cannot end before it starts"))) as Hrate.
  { rewrite (active_rate_field_window _ _ zone low_start_str low_end_str at_) by done.
    rewrite Hls, Hle. simpl. case_decide as Heq.
    - subst low_end. rewrite MayaInterval_init_Ok by lia. simpl.
      unfold contains_dt. simpl.
      destruct (Z.leb_spec low_start at_), (Z.ltb_spec at_ low_start); simpl; (done || lia).
    - rewrite MayaInterval_init_Raise by lia. done. }
  split; [done|].
  intros Hlt account_name metrics Hin.
  unfold store_series. eapply comprehension_Raise; [exact Hin|].
  unfold tags_for_measurement. rewrite Hp. simpl. rewrite Hrate.
  rewrite decide_False by lia. done.
Qed.

Lemma rate_window_not_before_witness :
  let m := reading "2023-01-01T12:00:00Z" 1%float in
  let rate_data := tou_rates (Some "UTC") "23:00" "05:00" in
  active_rate_field "electricity" rate_data m =
    (if decide (1672614000 = 1672549200) then Ok "unit_rate_high"
     else Raise (ValueError "MayaInterval cannot end before it starts")) ∧
  (1672549200 < 1672614000 →
   ∀ account_name metrics, m ∈ metrics →
     ∃ e, store_series "electricity" account_name rate_data metrics = Raise e).
Proof.
  apply (rate_window_not_before (tou_rates (Some "UTC") "23:00" "05:00")
           (reading "2023-01-01T12:00:00Z" 1%float)
           "UTC" "23:00" "05:00" 1672574400 1672614000 1672549200);
    try (vm_compute; reflexivity); lia.
Defined.

(** C2, as stated, fails on the default configuration: the clock times are
    00:00 and 00:00, the two bounds of the window are the same instant, and
    the reading is given a category. *)
Lemma default_window_raises_nothing :
  let m := reading "2023-01-01T12:00:00Z" 1%float in
  (unit_rate_low_start <$> electricity_rate_data minimal_config "Europe/London" 48%float)
    = Ok (Some "00:00") ∧
  (unit_rate_low_end <$> electricity_rate_data minimal_config "Europe/London" 48%float)
    = Ok (Some "00:00") ∧
  maya_parse (interval_start m) = Ok 1672574400 ∧
  rate_window_bound "Europe/London" 1672574400 "00:00" = Ok 1672531200 ∧
  (rate_data ← electricity_rate_data minimal_config "Europe/London" 48%float;
   active_rate_field "electricity" rate_data m) = Ok "unit_rate_high".
Proof. vm_compute. done. Qed.

(** ** The agile table *)

(** A timestamp that no point of the table carries has no entry. *)
Lemma agile_rates_None (rate_data : rate_catalog) (key : string) :
  (∀ pt, pt ∈ agile_data rate_data → valid_from pt ≠ key) →
  agile_rates rate_data !! key = None.
Proof.
  unfold agile_rates. induction (agile_data rate_data) as [|pt pts IH] using rev_ind.
  - done.
  - intros Hne. rewrite foldl_app. simpl.
    rewrite lookup_insert_ne by (apply Hne; set_solver).
    apply IH. intros pt' Hin. apply Hne. set_solver.
Qed.

(** When the timestamps of the table are pairwise distinct, the entry of
    a point is its rate. *)
Lemma agile_rates_Some (rate_data : rate_catalog) (pt : rate_point) :
  NoDup (valid_from <$> agile_data rate_data) →
  pt ∈ agile_data rate_data →
  agile_rates rate_data !! valid_from pt = Some (value_inc_vat pt).
Proof.
  unfold agile_rates. induction (agile_data rate_data) as [|pt' pts IH] using rev_ind.
  - by intros _ ?%elem_of_nil.
  - rewrite fmap_app. simpl. intros [Hnd [Hdisj _]]%NoDup_app.
    rewrite foldl_app. simpl. intros [Hin | ->%list_elem_of_singleton]%elem_of_app.
    + rewrite lookup_insert_ne; [by apply IH|].
      intros Heq. apply (Hdisj (valid_from pt)).
      * apply list_elem_of_fmap. eauto.
      * rewrite Heq. set_solver.
    + by rewrite lookup_insert_eq.
Qed.

(** The dictionary built from the list under [agile_unit_rates]: the
    entry of a timestamp is the rate of the last point of the list that
    carries it. *)
Lemma agile_rates_of_table (rate_data : rate_catalog)
    (table before after : list rate_point) (pt : rate_point) :
  agile_unit_rates rate_data = Some table →
  table = before ++ pt :: after →
  (∀ later, later ∈ after → valid_from later ≠ valid_from pt) →
  agile_rates rate_data !! valid_from pt = Some (value_inc_vat pt).
Proof.
  unfold agile_rates, agile_data. intros -> -> Hlater. simpl.
  rewrite foldl_app. simpl.
  generalize (foldl (λ d p, <[valid_from p := value_inc_vat p]> d)
                (∅ : gmap string float) before).
  induction after as [|later after IH] using rev_ind; intros dict.
  - simpl. by rewrite lookup_insert_eq.
  - rewrite foldl_app. simpl. rewrite lookup_insert_ne.
    + apply IH. intros q Hq. apply Hlater. set_solver.
    + apply Hlater. set_solver.
Qed.

(** C3. When the catalog carries a non-empty list [agile_unit_rates],
    computing the fields of a reading whose flat or time-of-use rate
    resolves does not raise, and [agile_rate] is the [value_inc_vat] of the
    point of that list whose [valid_from] is the ISO-8601 rendering of
    [interval_start] (the last such point, should the list name the
    timestamp twice), or that flat or time-of-use rate (the [rate] field)
    when no point of the list has that [valid_from]. *)
Theorem agile_rate_lookup `{TimeLib} (series : string) (rate_data : rate_catalog)
    (m : metric) (rate : string) (rate_cost charge agile_charge : float) (at_ : Z)
    (table : list rate_point) :
  agile_unit_rates rate_data = Some table →
  table ≠ [] →
  active_rate_field series rate_data m = Ok rate →
  rate_data_rate rate_data rate = Ok rate_cost →
  standing_charge rate_data = Some charge →
  agile_standing_charge rate_data = Some agile_charge →
  maya_parse (interval_start m) = Ok at_ →
  ∃ fields,
    fields_for_measurement series rate_data m = Ok fields ∧
    fields !! "rate" = Some rate_cost ∧
    (∀ before pt after,
       table = before ++ pt :: after →
       valid_from pt = iso8601 at_ →
       (∀ later, later ∈ after → valid_from later ≠ iso8601 at_) →
       fields !! "agile_rate" = Some (value_inc_vat pt)) ∧
    ((∀ pt, pt ∈ table → valid_from pt ≠ iso8601 at_) →
       fields !! "agile_rate" = Some rate_cost).
Proof.
  intros Htable Hne Hrate Hcost Hcharge Hac Hat.
  assert (agile_data rate_data = table) as Hdata.
  { unfold agile_data. by rewrite Htable. }
  unfold fields_for_measurement. rewrite Hrate. cbn [mbind result_bind].
  rewrite Hcost. cbn [mbind result_bind]. rewrite Hcharge, Hdata.
  assert (list_truthy table = true) as -> by (by destruct table).
  cbn [mbind result_bind subscript]. rewrite Hac.
  cbn [mbind result_bind subscript]. rewrite Hat. cbn [mbind result_bind].
  eexists. split; [done|].
  split; [by simplify_map_eq|].
  split.
  - intros before pt after Hsplit Hkey Hlater.
    rewrite <- Hkey in Hlater |- *.
    rewrite (agile_rates_of_table rate_data table before after pt) by done.
    by simplify_map_eq.
  - intros Hnone. rewrite agile_rates_None by (by rewrite Hdata).
    by simplify_map_eq.
Qed.

Lemma agile_rate_lookup_witness :
  let table :=
    [ {| valid_from := "2023-07-01T12:00:00Z"; value_inc_vat := 29.75%float |};
      {| valid_from := "2023-07-01T11:30:00Z"; value_inc_vat := 30.5%float |};
      {| valid_from := "2023-07-01T12:00:00Z"; value_inc_vat := 31.25%float |} ] in
  let rate_data := with_agile table (tou_rates (Some "Europe/London") "00:30" "04:30") in
  (∃ fields,
     fields_for_measurement "electricity" rate_data
       (reading "2023-07-01T12:00:00Z" 2%float) = Ok fields ∧
     fields !! "rate" = Some 20%float ∧
     fields !! "agile_rate" = Some 31.25%float) ∧
  (∃ fields,
     fields_for_measurement "electricity" rate_data
       (reading "2023-07-01T12:30:00Z" 2%float) = Ok fields ∧
     fields !! "rate" = Some 20%float ∧
     fields !! "agile_rate" = Some 20%float).
Proof.
  intros table rate_data. split.
  - destruct (agile_rate_lookup "electricity" rate_data
                (reading "2023-07-01T12:00:00Z" 2%float)
                "unit_rate_high" 20%float 48%float 24%float 1688212800 table)
      as (fields & Hfields & Hrate & Hfound & _);
      [reflexivity | discriminate | vm_compute; reflexivity | reflexivity
      | reflexivity | reflexivity | vm_compute; reflexivity |].
    exists fields. split; [exact Hfields|]. split; [exact Hrate|].
    apply (Hfound
             [ {| valid_from := "2023-07-01T12:00:00Z"; value_inc_vat := 29.75%float |};
               {| valid_from := "2023-07-01T11:30:00Z"; value_inc_vat := 30.5%float |} ]
             {| valid_from := "2023-07-01T12:00:00Z"; value_inc_vat := 31.25%float |}
             []).
    + reflexivity.
    + vm_compute. reflexivity.
    + intros later Hin. apply elem_of_nil in Hin. destruct Hin.
  - destruct (agile_rate_lookup "electricity" rate_data
                (reading "2023-07-01T12:30:00Z" 2%float)
                "unit_rate_high" 20%float 48%float 24%float 1688214600 table)
      as (fields & Hfields & Hrate & _ & Hmissing);
      [reflexivity | discriminate | vm_compute; reflexivity | reflexivity
      | reflexivity | reflexivity | vm_compute; reflexivity |].
    exists fields. split; [exact Hfields|]. split; [exact Hrate|].
    apply Hmissing. intros pt Hin.
    repeat (apply elem_of_cons in Hin as [-> | Hin]; [vm_compute; discriminate|]).
    apply elem_of_nil in Hin. destruct Hin.
Defined.

(** ** Cost fields *)

(** C4. In every point of the batch, [total_cost] is [cost] plus the
    standing charge of the catalog divided by 48; and where [agile_cost] is
    present, [agile_total_cost] is [agile_cost] plus the agile standing
    charge divided by 48. *)
Theorem total_cost_amortised `{TimeLib} (series : string) (account_name : option string)
    (rate_data : rate_catalog) (metrics : list metric) (batch : list point) (p : point) :
  store_series series account_name rate_data metrics = Ok batch →
  p ∈ batch →
  ∃ cost charge,
    standing_charge rate_data = Some charge ∧
    pt_fields p !! "cost" = Some cost ∧
    pt_fields p !! "total_cost" = Some (cost + charge / 48)%float ∧
    ∀ agile_cost,
      pt_fields p !! "agile_cost" = Some agile_cost →
      ∃ agile_charge,
        agile_standing_charge rate_data = Some agile_charge ∧
        pt_fields p !! "agile_total_cost" = Some (agile_cost + agile_charge / 48)%float.
Proof.
  intros Hs Hp.
  destruct (store_series_point_of _ _ _ _ _ _ Hs Hp) as (m & _ & _ & _ & Hf).
  apply fields_for_measurement_Ok in Hf
    as (rate & rate_cost & charge & _ & _ & Hcharge & Hf).
  exists (converted_consumption rate_data m * rate_cost)%float, charge.
  split; [done|].
  destruct Hf as [[_ ->] | (_ & agile_charge & at_ & Hac & _ & ->)].
  - rewrite base_fields_cost, base_fields_total_cost. repeat split.
    intros agile_cost. unfold base_fields. by simplify_map_eq.
  - rewrite !lookup_insert_ne by done.
    rewrite base_fields_cost, base_fields_total_cost. repeat split.
    intros agile_cost. rewrite lookup_insert_eq.
    intros [= <-]. by exists agile_charge.
Qed.

(** C5, as amended. In every point of the batch, the [consumption] field
    is the consumption of its reading multiplied by [conversion_factor]
    when the factor is set and not zero, and the consumption of its reading
    itself when the factor is unset or zero. *)
Theorem consumption_converted `{TimeLib} (series : string) (account_name : option string)
    (rate_data : rate_catalog) (metrics : list metric) (batch : list point) :
  store_series series account_name rate_data metrics = Ok batch →
  Forall2 (λ m p,
    (∀ factor, conversion_factor rate_data = Some factor → float_truthy factor = true →
       pt_fields p !! "consumption" = Some (consumption m * factor)%float) ∧
    (∀ factor, conversion_factor rate_data = Some factor → float_truthy factor = false →
       pt_fields p !! "consumption" = Some (consumption m)) ∧
    (conversion_factor rate_data = None →
       pt_fields p !! "consumption" = Some (consumption m))) metrics batch.
Proof.
  intros Hs%store_series_points.
  eapply Forall2_impl; [exact Hs|].
  intros m p (_ & _ & _ & Hf). simpl.
  apply fields_for_measurement_Ok in Hf as (rate & rate_cost & charge & _ & _ & _ & Hf).
  assert (pt_fields p !! "consumption" = Some (converted_consumption rate_data m)) as ->.
  { destruct Hf as [[_ ->] | (_ & agile_charge & at_ & _ & _ & ->)].
    - apply base_fields_consumption.
    - rewrite !lookup_insert_ne by done. apply base_fields_consumption. }
  unfold converted_consumption.
  repeat split.
  - by intros factor -> ->.
  - by intros factor -> ->.
  - by intros ->.
Qed.

Lemma total_cost_amortised_witness :
  let m := reading "2023-01-01T00:00:00Z" 10%float in
  let p :=
    {| pt_measurement := "gas";
       pt_tags := {| tag_active_rate := "unit_rate"; tag_time_of_day := "00:00";
                     tag_account_name := None |};
       pt_time := "2023-01-01T00:00:00Z";
       pt_fields := base_fields (gas_rates None) m 5%float 48%float |} in
  ∃ cost charge,
    standing_charge (gas_rates None) = Some charge ∧
    pt_fields p !! "cost" = Some cost ∧
    pt_fields p !! "total_cost" = Some (cost + charge / 48)%float ∧
    ∀ agile_cost,
      pt_fields p !! "agile_cost" = Some agile_cost →
      ∃ agile_charge,
        agile_standing_charge (gas_rates None) = Some agile_charge ∧
        pt_fields p !! "agile_total_cost" = Some (agile_cost + agile_charge / 48)%float.
Proof.
  intros m p.
  apply (total_cost_amortised "gas" None (gas_rates None) [m] [p] p).
  - vm_compute. reflexivity.
  - apply list_elem_of_singleton. reflexivity.
Defined.

Lemma consumption_converted_witness :
  let rate_data := gas_rates (Some 11.36%float) in
  let m := reading "2023-01-01T00:00:00Z" 10%float in
  let p :=
    {| pt_measurement := "gas";
       pt_tags := {| tag_active_rate := "unit_rate"; tag_time_of_day := "00:00";
                     tag_account_name := None |};
       pt_time := "2023-01-01T00:00:00Z";
       pt_fields := base_fields rate_data m 5%float 48%float |} in
  Forall2 (λ m p,
    (∀ factor, conversion_factor rate_data = Some factor → float_truthy factor = true →
       pt_fields p !! "consumption" = Some (consumption m * factor)%float) ∧
    (∀ factor, conversion_factor rate_data = Some factor → float_truthy factor = false →
       pt_fields p !! "consumption" = Some (consumption m)) ∧
    (conversion_factor rate_data = None →
       pt_fields p !! "consumption" = Some (consumption m))) [m] [p].
Proof.
  intros rate_data m p.
  apply (consumption_converted "gas" None rate_data [m] [p]).
  vm_compute. reflexivity.
Defined.

(** C5, as stated, fails on a conversion factor that is set and zero: the
    consumption is not multiplied, the field holds the raw consumption [10]
    and not [10 * 0]. *)
Lemma zero_conversion_factor_is_not_applied :
  let rate_data := gas_rates (Some 0%float) in
  let m := reading "2023-01-01T00:00:00Z" 10%float in
  conversion_factor rate_data = Some 0%float ∧
  ((λ fields : gmap string float, fields !! "consumption")
     <$> fields_for_measurement "gas" rate_data m) = Ok (Some 10%float) ∧
  ((λ fields : gmap string float, fields !! "consumption")
     <$> fields_for_measurement "gas" rate_data m)
    ≠ Ok (Some (consumption m * 0)%float).
Proof.
  split; [reflexivity|]. split; [vm_compute; reflexivity|].
  intros Heq.
  apply (f_equal (λ r, match r with
                       | Ok (Some x) => PrimFloat.eqb x 0%float
                       | _ => false
                       end)) in Heq.
  vm_compute in Heq. discriminate Heq.
Qed.

(** C7. When the catalog has no agile table (the key is absent, or the
    table is empty), the fields of every point of the batch are exactly
    [consumption], [cost], [total_cost] and [rate]: none of [agile_rate],
    [agile_cost] and [agile_total_cost] is present. *)
Theorem no_agile_fields `{TimeLib} (series : string) (account_name : option string)
    (rate_data : rate_catalog) (metrics : list metric) (batch : list point) (p : point) :
  agile_unit_rates rate_data = None ∨ agile_unit_rates rate_data = Some [] →
  store_series series account_name rate_data metrics = Ok batch →
  p ∈ batch →
  dom (pt_fields p) = ({[ "consumption"; "cost"; "total_cost"; "rate" ]} : gset string) ∧
  pt_fields p !! "agile_rate" = None ∧
  pt_fields p !! "agile_cost" = None ∧
  pt_fields p !! "agile_total_cost" = None.
Proof.
  intros Hnone Hs Hp.
  assert (agile_data rate_data = []) as Hagile.
  { unfold agile_data. by destruct Hnone as [-> | ->]. }
  destruct (store_series_point_of _ _ _ _ _ _ Hs Hp) as (m & _ & _ & _ & Hf).
  apply fields_for_measurement_Ok in Hf as (rate & rate_cost & charge & _ & _ & _ & Hf).
  destruct Hf as [[_ ->] | [Hne _]]; [|done].
  split; [apply base_fields_dom|].
  unfold base_fields. by simplify_map_eq.
Qed.

Lemma no_agile_fields_witness :
  let m := reading "2023-07-01T12:00:00Z" 2%float in
  let rate_data := tou_rates (Some "Europe/London") "00:30" "04:30" in
  let p :=
    {| pt_measurement := "electricity";
       pt_tags := {| tag_active_rate := "unit_rate_high"; tag_time_of_day := "12:00";
                     tag_account_name := Some "home" |};
       pt_time := "2023-07-01T12:00:00Z";
       pt_fields := base_fields rate_data m 20%float 48%float |} in
  dom (pt_fields p) = ({[ "consumption"; "cost"; "total_cost"; "rate" ]} : gset string) ∧
  pt_fields p !! "agile_rate" = None ∧
  pt_fields p !! "agile_cost" = None ∧
  pt_fields p !! "agile_total_cost" = None.
Proof.
  intros m rate_data p.
  apply (no_agile_fields "electricity" (Some "home") rate_data [m] [p] p).
  - right. reflexivity.
  - vm_compute. reflexivity.
  - apply list_elem_of_singleton. reflexivity.
Defined.

(** ** Tags and timestamp *)

Lemma strftime_hour_minute (t : Z) :
  strftime "%H:%M" t = pad2 (dt_hour t) +:+ ":" +:+ pad2 (dt_minute t).
Proof. reflexivity. Qed.

(** C9, as amended. In every point of the batch, the timestamp is the
    [interval_start] of its reading, unchanged, and the [time_of_day] tag is
    that instant written [HH:MM] on the UTC clock. *)
Theorem point_time_and_time_of_day `{TimeLib} (series : string)
    (account_name : option string) (rate_data : rate_catalog)
    (metrics : list metric) (batch : list point) :
  store_series series account_name rate_data metrics = Ok batch →
  Forall2 (λ m p,
    pt_time p = interval_start m ∧
    ∃ at_,
      maya_parse (interval_start m) = Ok at_ ∧
      tag_time_of_day (pt_tags p) = pad2 (dt_hour at_) +:+ ":" +:+ pad2 (dt_minute at_))
    metrics batch.
Proof.
  intros Hs%store_series_points.
  eapply Forall2_impl; [exact Hs|].
  intros m p (_ & Ht & Htime & _). simpl. split; [done|].
  unfold tags_for_measurement in Ht.
  apply bind_Ok in Ht as (at_ & Hat & Ht). exists at_. split; [done|].
  simpl in Ht. apply bind_Ok in Ht as (rate & _ & Ht).
  injection Ht as <-. simpl. apply strftime_hour_minute.
Qed.

Lemma point_time_and_time_of_day_witness :
  let m := reading "2023-07-01T00:30:00+01:00" 2%float in
  let rate_data := tou_rates (Some "Europe/London") "00:30" "04:30" in
  let p :=
    {| pt_measurement := "electricity";
       pt_tags := {| tag_active_rate := "unit_rate_low"; tag_time_of_day := "23:30";
                     tag_account_name := Some "home" |};
       pt_time := "2023-07-01T00:30:00+01:00";
       pt_fields := base_fields rate_data m 10%float 48%float |} in
  Forall2 (λ m p,
    pt_time p = interval_start m ∧
    ∃ at_,
      maya_parse (interval_start m) = Ok at_ ∧
      tag_time_of_day (pt_tags p) = pad2 (dt_hour at_) +:+ ":" +:+ pad2 (dt_minute at_))
    [m] [p].
Proof.
  intros m rate_data p.
  apply (point_time_and_time_of_day "electricity" (Some "home") rate_data [m] [p]).
  vm_compute. reflexivity.
Defined.

(** C9, as stated, fails on a summer reading of a Europe/London catalog:
    the instant is 13:00 on the local clock and the tag reads 12:00. *)
Lemma time_of_day_is_not_local :
  let m := reading "2023-07-01T12:00:00Z" 2%float in
  let rate_data := tou_rates (Some "Europe/London") "00:30" "04:30" in
  unit_rate_zone rate_data = Some (Some "Europe/London") ∧
  maya_parse (interval_start m) = Ok 1688212800 ∧
  local_time_of_day "Europe/London" 1688212800 = Ok "13:00" ∧
  (map (λ p, tag_time_of_day (pt_tags p))
     <$> store_series "electricity" (Some "home") rate_data [m]) = Ok ["12:00"].
Proof. vm_compute. done. Qed.

(** ** Pagination *)

Section pagination.
Context `{PyLib} {A : Type}.
Context (api : request → result (page_data A)).
Context (api_key url_ from_date to_date : string).

(** One call: the request, then the rest by what the page answers. *)
Lemma retrieve_paginated_data_unfold depth page tr :
  retrieve_paginated_data (S depth) api api_key url_ from_date to_date page tr =
  match api ({| url := url_; params := page_args from_date to_date page; auth := api_key |}) with
  | Raise e => (Raise e, tr ++ [HttpGet ({| url := url_; params := page_args from_date to_date page; auth := api_key |})])
  | Ok data =>
      match next data with
      | None => (Raise (KeyError "next"), tr ++ [HttpGet ({| url := url_; params := page_args from_date to_date page; auth := api_key |})])
      | Some next_ =>
          if opt_truthy next_ then
            match query_page (default "" next_) with
            | Raise e => (Raise e, tr ++ [HttpGet ({| url := url_; params := page_args from_date to_date page; auth := api_key |})])
            | Ok next_page =>
                match retrieve_paginated_data depth api api_key url_ from_date to_date
                        (Some next_page) (tr ++ [HttpGet ({| url := url_; params := page_args from_date to_date page; auth := api_key |})]) with
                | (Ok more, tr') => (Ok (default [] (results data) ++ more), tr')
                | (Raise e, tr') => (Raise e, tr')
                end
            end
          else (Ok (default [] (results data)), tr ++ [HttpGet ({| url := url_; params := page_args from_date to_date page; auth := api_key |})])
      end
  end.
Proof.
  cbn [retrieve_paginated_data]. unfold requests_get, emit, lift, mbind, IO_bind, mret, IO_ret.
  destruct (api ({| url := url_; params := page_args from_date to_date page; auth := api_key |})) as [data|e]; [|done].
  destruct (next data) as [next_|]; [|done]. cbn [subscript].
  destruct (opt_truthy next_); [|done].
  destruct (query_page (default "" next_)) as [next_page|e]; [|done].
  by destruct (retrieve_paginated_data depth api api_key url_ from_date to_date
                 (Some next_page) (tr ++ [HttpGet ({| url := url_; params := page_args from_date to_date page; auth := api_key |})])) as [[more|e] tr'].
Qed.
End pagination.

(** C10, as amended. When the provider serves a chain of pages and the
    recursion limit allows one call per page, the fetch returns the results
    of all the pages concatenated in the order in which the pages are
    fetched, with one request per page; its length is the sum of the
    lengths of the pages. *)
Theorem pages_in_fetch_order `{PyLib} {A : Type} (api : request → result (page_data A))
    (api_key url_ from_date to_date : string) (page : option string)
    (pages : list (list A)) (depth : nat) (tr : list event) :
  page_chain api api_key url_ from_date to_date page pages →
  (length pages ≤ depth)%nat →
  ∃ tr',
    retrieve_paginated_data depth api api_key url_ from_date to_date page tr
      = (Ok (concat pages), tr') ∧
    length tr' = (length tr + length pages)%nat ∧
    length (concat pages) = sum_list (length <$> pages).
Proof.
  intros Hchain. revert depth tr.
  induction Hchain as [page data Hget Hnext
                      | page data link next_page pages Hget Hnext Hlink Hquery _ IH];
    intros depth tr Hdepth; (destruct depth as [|depth]; [simpl in Hdepth; lia|]);
    rewrite retrieve_paginated_data_unfold, Hget.
  - exists (tr ++ [HttpGet {| url := url_; params := page_args from_date to_date page;
                              auth := api_key |}]).
    cbn [concat fmap list_fmap sum_list sum_list_with length]. rewrite app_nil_r.
    destruct Hnext as [-> | ->]; cbn [opt_truthy str_truthy];
      (split; [done|]); rewrite length_app; simpl; lia.
  - rewrite Hnext. simpl. rewrite Hlink, Hquery.
    destruct (IH depth (tr ++ [HttpGet {| url := url_;
                                          params := page_args from_date to_date page;
                                          auth := api_key |}])) as (tr' & -> & Hlen & Hsum).
    { simpl in Hdepth. lia. }
    exists tr'. split; [done|]. split.
    + rewrite Hlen, length_app. simpl. lia.
    + rewrite length_app, Hsum. done.
Qed.

Lemma pages_in_fetch_order_witness :
  let pages := [ [reading "2023-01-01T00:00:00Z" 1%float];
                 [reading "2023-01-01T00:30:00Z" 2%float];
                 [reading "2023-01-01T01:00:00Z" 3%float] ] in
  ∃ tr',
    retrieve_paginated_data 1000 three_pages "sk_live_key"
      "https://api.octopus.energy/v1/electricity-meter-points/1/meters/2/consumption/"
      "2023-01-01T00:00:00Z" "2023-01-02T00:00:00Z" None []
      = (Ok (concat pages), tr') ∧
    length tr' = (length ([] : list event) + length pages)%nat ∧
    length (concat pages) = sum_list (length <$> pages).
Proof.
  intros pages.
  apply (pages_in_fetch_order three_pages).
  - set (endpoint := "https://api.octopus.energy/v1/electricity-meter-points/1/meters/2/consumption/").
    apply (page_chain_next three_pages _ _ _ _ None
             {| results := Some [reading "2023-01-01T00:00:00Z" 1%float];
                next := Some (Some (endpoint
                          +:+ "?page=2&period_from=2023-01-01T00:00:00Z")) |}
             (endpoint +:+ "?page=2&period_from=2023-01-01T00:00:00Z") "2");
      [reflexivity | reflexivity | reflexivity | reflexivity |].
    apply (page_chain_next three_pages _ _ _ _ (Some "2")
             {| results := Some [reading "2023-01-01T00:30:00Z" 2%float];
                next := Some (Some (endpoint
                          +:+ "?page=3&period_from=2023-01-01T00:00:00Z")) |}
             (endpoint +:+ "?page=3&period_from=2023-01-01T00:00:00Z") "3");
      [reflexivity | reflexivity | reflexivity | reflexivity |].
    apply (page_chain_last three_pages _ _ _ _ (Some "3")
             {| results := Some [reading "2023-01-01T01:00:00Z" 3%float];
                next := Some None |});
      [reflexivity | left; reflexivity].
  - simpl. lia.
Defined.

(** C10, as stated, fails on a chain of three pages: the results come in
    the order of the pages, the third page after the second. *)
Lemma three_pages_are_not_reversed :
  let fetched :=
    (retrieve_paginated_data 1000 three_pages "sk_live_key"
       "https://api.octopus.energy/v1/electricity-meter-points/1/meters/2/consumption/"
       "2023-01-01T00:00:00Z" "2023-01-02T00:00:00Z" None []).1 in
  (map interval_start <$> fetched)
    = Ok ["2023-01-01T00:00:00Z"; "2023-01-01T00:30:00Z"; "2023-01-01T01:00:00Z"] ∧
  map interval_start
    (reversed_page_order [ [reading "2023-01-01T00:00:00Z" 1%float];
                           [reading "2023-01-01T00:30:00Z" 2%float];
                           [reading "2023-01-01T01:00:00Z" 3%float] ])
    = ["2023-01-01T00:00:00Z"; "2023-01-01T01:00:00Z"; "2023-01-01T00:30:00Z"] ∧
  (map interval_start <$> fetched)
    ≠ Ok (map interval_start
            (reversed_page_order [ [reading "2023-01-01T00:00:00Z" 1%float];
                                   [reading "2023-01-01T00:30:00Z" 2%float];
                                   [reading "2023-01-01T01:00:00Z" 3%float] ])).
Proof. vm_compute. repeat split. discriminate. Qed.

(** ** Configuration errors of [cmd] *)

Section cmd_errors.
Context `{TimeLib} `{PyLib}.
Context (w : world) (recursion_limit : nat).
Context (config : gmap string (gmap string string)) (from_date to_date : string).

(** X16. A run whose API key is empty raises the [ClickException] "No
    Octopus API key set" and adds no event: no request is sent, nothing is
    printed or written. *)
Lemma cmd_no_api_key port api_key tr :
  getint config "influxdb" "port" 8086 = Ok port →
  config_get_required config "octopus" "api_key" = Ok api_key →
  str_truthy api_key = false →
  cmd w recursion_limit config from_date to_date tr
    = (Raise (ClickException "No Octopus API key set"), tr).
Proof.
  intros Hport Hkey Hfalsy. unfold cmd, mbind, IO_bind, lift, raise.
  by rewrite Hport, Hkey, Hfalsy.
Qed.

(** X17. A run with an API key whose electricity meter point or serial
    number is missing or empty raises the [ClickException] "No electricity
    meter identifiers" and adds no event. *)
Lemma cmd_no_electricity_identifiers port api_key from_ to_ tr :
  getint config "influxdb" "port" 8086 = Ok port →
  config_get_required config "octopus" "api_key" = Ok api_key →
  str_truthy api_key = true →
  let timezone :=
    default "Europe/London" (config_get config "electricity" "unit_rate_time_zone") in
  maya_when from_date timezone = Ok from_ →
  maya_when to_date timezone = Ok to_ →
  opt_truthy (config_get config "electricity" "mpan") = false
  ∨ opt_truthy (config_get config "electricity" "serial_number") = false →
  cmd w recursion_limit config from_date to_date tr
    = (Raise (ClickException "No electricity meter identifiers"), tr).
Proof.
  intros Hport Hkey Htruthy timezone Hfrom Hto Hids.
  unfold cmd, mbind, IO_bind, lift, raise.
  rewrite Hport, Hkey, Htruthy. simpl negb. cbv iota.
  fold timezone. rewrite Hfrom, Hto.
  by destruct Hids as [-> | ->]; [|rewrite orb_true_r].
Qed.

(** X18. A run with an API key and electricity identifiers, whose gas
    series is not ignored and whose gas meter point or serial number is
    missing or empty, raises the [ClickException] "No gas meter identifiers"
    after exactly one request, the one for the electricity standing
    charge, when that request answers with at least one result. *)
Lemma cmd_no_gas_identifiers port api_key from_ to_ data first rest tr :
  getint config "influxdb" "port" 8086 = Ok port →
  config_get_required config "octopus" "api_key" = Ok api_key →
  str_truthy api_key = true →
  let timezone :=
    default "Europe/London" (config_get config "electricity" "unit_rate_time_zone") in
  maya_when from_date timezone = Ok from_ →
  maya_when to_date timezone = Ok to_ →
  opt_truthy (config_get config "electricity" "mpan") = true →
  opt_truthy (config_get config "electricity" "serial_number") = true →
  let e_sc_request :=
    {| url := (api_root +:+ "products/"
               +:+ default "AGILE-FLEX-22-11-25"
                     (config_get config "electricity" "product_code")
               +:+ "/electricity-tariffs/"
               +:+ default "E-1R-AGILE-FLEX-22-11-25-C"
                     (config_get config "electricity" "tariff_code"))
              +:+ "/standing-charges/";
       params := period_args (iso8601 from_) (iso8601 to_);
       auth := api_key |} in
  rates_api w e_sc_request = Ok data →
  results data = Some (first :: rest) →
  getboolean config "gas" "ignore" false = Ok false →
  opt_truthy (config_get config "gas" "mprn") = false
  ∨ opt_truthy (config_get config "gas" "serial_number") = false →
  cmd w recursion_limit config from_date to_date tr
    = (Raise (ClickException "No gas meter identifiers"), tr ++ [HttpGet e_sc_request]).
Proof.
  intros Hport Hkey Htruthy timezone Hfrom Hto Hmpan Hserial rq Hget Hres Hign Hids.
  unfold cmd, get_latest_value_inc_vat, requests_get, emit, mbind, IO_bind, lift, raise.
  rewrite Hport, Hkey, Htruthy. simpl negb. cbv iota.
  fold timezone. rewrite Hfrom, Hto, Hmpan, Hserial. simpl negb. simpl orb. cbv iota.
  cbv zeta. fold rq. rewrite Hget, Hres. simpl default. cbv iota. unfold mret, IO_ret.
  rewrite Hign. simpl negb. rewrite andb_true_r.
  by destruct Hids as [-> | ->]; [|rewrite orb_true_r].
Qed.
End cmd_errors.

Lemma cmd_no_api_key_witness :
  cmd provider 1000 (<["octopus" := {[ "api_key" := "" ]}]> minimal_config)
    "2023-01-01T00:00" "2023-01-02T00:00" []
  = (Raise (ClickException "No Octopus API key set"), []).
Proof.
  apply (cmd_no_api_key provider 1000 _ _ _ 8086 ""); reflexivity.
Defined.

Lemma cmd_no_electricity_identifiers_witness :
  cmd provider 1000 (<["electricity" := {[ "mpan" := "1200000000000" ]}]> minimal_config)
    "2023-01-01T00:00" "2023-01-02T00:00" []
  = (Raise (ClickException "No electricity meter identifiers"), []).
Proof.
  apply (cmd_no_electricity_identifiers provider 1000 _ _ _ 8086 "sk_live_key"
           1672531200 1672617600);
    try (vm_compute; reflexivity).
  right. vm_compute. reflexivity.
Defined.

Lemma cmd_no_gas_identifiers_witness :
  cmd provider 1000 minimal_config "2023-01-01T00:00" "2023-01-02T00:00" []
  = (Raise (ClickException "No gas meter identifiers"),
     [] ++ [HttpGet
              {| url := (api_root +:+ "products/" +:+ "AGILE-FLEX-22-11-25"
                         +:+ "/electricity-tariffs/" +:+ "E-1R-AGILE-FLEX-22-11-25-C")
                        +:+ "/standing-charges/";
                 params := period_args (iso8601 1672531200) (iso8601 1672617600);
                 auth := "sk_live_key" |}]).
Proof.
  apply (cmd_no_gas_identifiers provider 1000 minimal_config _ _ 8086 "sk_live_key"
           1672531200 1672617600
           {| results := Some [ {| valid_from := "2023-01-01T00:00:00Z";
                                   value_inc_vat := 48%float |} ];
              next := Some None |}
           {| valid_from := "2023-01-01T00:00:00Z"; value_inc_vat := 48%float |} []);
    try (vm_compute; reflexivity).
  left. vm_compute. reflexivity.
Defined.

(** C8. The run on a configuration that names the API key and the
    electricity meter and has no gas section (gas is not ignored, its meter
    identifiers are missing): the request for the electricity standing
    charge is sent, and only then is the missing gas meter reported. *)
Theorem gas_identifiers_reported_after_a_request :
  cmd provider 1000 minimal_config "2023-01-01T00:00" "2023-01-02T00:00" []
  = (Raise (ClickException "No gas meter identifiers"),
     [HttpGet
        {| url := "https://api.octopus.energy/v1/products/AGILE-FLEX-22-11-25/electricity-tariffs/E-1R-AGILE-FLEX-22-11-25-C/standing-charges/";
           params := period_args "2023-01-01T00:00:00Z" "2023-01-02T00:00:00Z";
           auth := "sk_live_key" |}]).
Proof. vm_compute. reflexivity. Qed.

(** ** Two runs of the assembler *)

(** One gas reading of 10 units, a unit rate of 5, a standing charge of 48
    and no conversion factor. *)
Example gas_scenario :
  (map (λ p, (pt_fields p !! "consumption", pt_fields p !! "cost",
              pt_fields p !! "total_cost", pt_fields p !! "rate",
              size (pt_fields p)))
     <$> store_series "gas" None (gas_rates None) [reading "2023-01-01T00:00:00Z" 10%float])
  = Ok [(Some 10%float, Some 50%float, Some 51%float, Some 5%float, 4%nat)].
Proof. vm_compute. reflexivity. Qed.

(** One electricity reading inside the low-rate window. *)
Example electricity_low_scenario :
  (map (λ p, (tag_active_rate (pt_tags p), pt_fields p !! "rate"))
     <$> store_series "electricity" None (tou_rates (Some "Europe/London") "00:30" "04:30")
           [reading "2023-07-01T02:00:00+01:00" 1%float])
  = Ok [("unit_rate_low", Some 10%float)].
Proof. vm_compute. reflexivity. Qed.

(** * Further properties *)

(** ** The assembler *)


Lemma tags_for_measurement_Ok `{TimeLib} series account_name rate_data m tags :
  tags_for_measurement series account_name rate_data m = Ok tags →
  ∃ at_,
    maya_parse (interval_start m) = Ok at_ ∧
    active_rate_field series rate_data m = Ok (tag_active_rate tags) ∧
    tag_time_of_day tags = strftime "%H:%M" at_ ∧
    tag_account_name tags = account_name.
Proof.
  unfold tags_for_measurement. intros Ht.
  apply bind_Ok in Ht as (at_ & Hat & Ht). simpl in Ht.
  apply bind_Ok in Ht as (rate & Hrate & Ht). injection Ht as <-.
  exists at_. done.
Qed.

(** X1. The batch of [store_series] has one point per reading, in the
    order of the readings; each point carries the series name, the
    [interval_start] of its reading as its time and the account name as its
    [account_name] tag. *)
Theorem store_series_one_point_per_reading `{TimeLib} (series : string)
    (account_name : option string) (rate_data : rate_catalog)
    (metrics : list metric) (batch : list point) :
  store_series series account_name rate_data metrics = Ok batch →
  length batch = length metrics ∧
  Forall2 (λ m p,
    pt_measurement p = series ∧
    pt_time p = interval_start m ∧
    tag_account_name (pt_tags p) = account_name) metrics batch.
Proof.
  intros Hs%store_series_points. split.
  - symmetry. by eapply Forall2_length.
  - eapply Forall2_impl; [exact Hs|].
    intros m p (? & Ht & ? & _). simpl.
    apply tags_for_measurement_Ok in Ht as (? & _ & _ & _ & ?). done.
Qed.

Lemma store_series_one_point_per_reading_witness :
  let batch := batch_of (store_series "gas" (Some "home") (gas_rates None) [gas_reading]) in
  length batch = length [gas_reading] ∧
  Forall2 (λ m p,
    pt_measurement p = "gas" ∧
    pt_time p = interval_start m ∧
    tag_account_name (pt_tags p) = Some "home") [gas_reading] batch.
Proof.
  intros batch.
  apply (store_series_one_point_per_reading "gas" (Some "home") (gas_rates None)).
  vm_compute. reflexivity.
Defined.

(** X2. In every point of the batch, the [rate] field is the entry of the
    catalog under the key that the [active_rate] tag names, and the [cost]
    field is the [consumption] field times the [rate] field. *)
Theorem rate_field_is_rate_of_tag `{TimeLib} (series : string)
    (account_name : option string) (rate_data : rate_catalog)
    (metrics : list metric) (batch : list point) (p : point) :
  store_series series account_name rate_data metrics = Ok batch →
  p ∈ batch →
  ∃ rate_cost kwh,
    rate_data_rate rate_data (tag_active_rate (pt_tags p)) = Ok rate_cost ∧
    pt_fields p !! "rate" = Some rate_cost ∧
    pt_fields p !! "consumption" = Some kwh ∧
    pt_fields p !! "cost" = Some (kwh * rate_cost)%float.
Proof.
  intros Hs Hp.
  destruct (store_series_point_of _ _ _ _ _ _ Hs Hp) as (m & _ & Ht & _ & Hf).
  apply tags_for_measurement_Ok in Ht as (at_ & _ & Hrate & _).
  apply fields_for_measurement_Ok in Hf
    as (rate & rate_cost & charge & Hrate' & Hcost & _ & Hf).
  rewrite Hrate in Hrate'. injection Hrate' as <-.
  exists rate_cost, (converted_consumption rate_data m). split; [done|].
  destruct Hf as [[_ ->] | (_ & agile_charge & at' & _ & _ & ->)].
  - by rewrite base_fields_rate, base_fields_consumption, base_fields_cost.
  - rewrite !lookup_insert_ne by done.
    by rewrite base_fields_rate, base_fields_consumption, base_fields_cost.
Qed.

Lemma rate_field_is_rate_of_tag_witness :
  let batch := batch_of (store_series "gas" None (gas_rates None) [gas_reading]) in
  Forall (λ p,
    ∃ rate_cost kwh,
      rate_data_rate (gas_rates None) (tag_active_rate (pt_tags p)) = Ok rate_cost ∧
      pt_fields p !! "rate" = Some rate_cost ∧
      pt_fields p !! "consumption" = Some kwh ∧
      pt_fields p !! "cost" = Some (kwh * rate_cost)%float) batch.
Proof.
  intros batch. apply Forall_forall. intros p Hp.
  apply (rate_field_is_rate_of_tag "gas" None (gas_rates None) [gas_reading] batch p).
  - vm_compute. reflexivity.
  - exact Hp.
Defined.



(** X4. A resolved category is [unit_rate] for the series [gas], and
    [unit_rate_high] or [unit_rate_low] for any other series. *)
Theorem active_rate_field_categories `{TimeLib} (series : string)
    (rate_data : rate_catalog) (m : metric) (rate : string) :
  active_rate_field series rate_data m = Ok rate →
  (series = "gas" ∧ rate = "unit_rate")
  ∨ (series ≠ "gas" ∧ (rate = "unit_rate_high" ∨ rate = "unit_rate_low")).
Proof.
  unfold active_rate_field. case_decide as Hgas.
  - intros [= <-]. by left.
  - intros Hr. right. split; [done|].
    apply bind_Ok in Hr as (zone & _ & Hr).
    destruct zone as [low_zone|]; [|injection Hr as <-; by left].
    destruct (str_truthy low_zone); simpl in Hr; [|injection Hr as <-; by left].
    inv_result. subst rate. match goal with |- context [contains_dt ?i ?t] => destruct (contains_dt i t) end; auto.
Qed.

Lemma active_rate_field_categories_witness :
  ("electricity" = "gas" ∧ "unit_rate_low" = "unit_rate")
  ∨ ("electricity" ≠ "gas"
     ∧ ("unit_rate_low" = "unit_rate_high" ∨ "unit_rate_low" = "unit_rate_low")).
Proof.
  apply (active_rate_field_categories "electricity"
           (tou_rates (Some "Europe/London") "00:30" "04:30")
           (reading "2023-07-01T02:00:00+01:00" 1%float)).
  vm_compute. reflexivity.
Defined.

(** X5. When the low-rate start and end clock times of the catalog are
    the same string, no reading resolves to [unit_rate_low], whatever the
    zone and the parsers do: the two bounds of the window are the same
    instant. *)
Theorem equal_clock_times_never_low `{TimeLib} (series : string)
    (rate_data : rate_catalog) (m : metric) (clock rate : string) :
  unit_rate_low_start rate_data = Some clock →
  unit_rate_low_end rate_data = Some clock →
  active_rate_field series rate_data m = Ok rate →
  rate = "unit_rate" ∨ rate = "unit_rate_high".
Proof.
  unfold active_rate_field. intros Hs He. case_decide as Hgas.
  - intros [= <-]. by left.
  - intros Hr. right.
    apply bind_Ok in Hr as (zone & _ & Hr).
    destruct zone as [low_zone|]; [|by injection Hr as <-].
    destruct (str_truthy low_zone); simpl in Hr; [|by injection Hr as <-].
    rewrite Hs, He in Hr. simpl in Hr.
    apply bind_Ok in Hr as (at_ & _ & Hr).
    apply bind_Ok in Hr as (local & -> & Hr).
    apply bind_Ok in Hr as (low_start & Hls & Hr). simpl in Hr. rewrite Hls in Hr.
    simpl in Hr.
    apply bind_Ok in Hr as (low_period & Hi & Hr). injection Hr as <-.
    unfold MayaInterval_init in Hi. destruct (low_start >? low_start); [done|].
    injection Hi as <-. unfold contains_dt. simpl.
    destruct (Z.leb_spec low_start at_), (Z.ltb_spec at_ low_start); simpl; (done || lia).
Qed.

Lemma equal_clock_times_never_low_witness :
  "unit_rate_high" = "unit_rate" ∨ "unit_rate_high" = "unit_rate_high".
Proof.
  apply (equal_clock_times_never_low "electricity"
           (tou_rates (Some "Europe/London") "00:00" "00:00")
           (reading "2023-07-01T00:00:00+01:00" 1%float) "00:00").
  - reflexivity.
  - reflexivity.
  - vm_compute. reflexivity.
Defined.

(** X6. For a series other than [gas]: a catalog without the key
    [unit_rate_zone] raises [KeyError('unit_rate_zone')]; with a truthy zone,
    a catalog without [unit_rate_low_start] raises
    [KeyError('unit_rate_low_start')], and one with it and without
    [unit_rate_low_end] raises [KeyError('unit_rate_low_end')]. *)
Theorem resolver_missing_keys `{TimeLib} (series : string) (rate_data : rate_catalog)
    (m : metric) :
  series ≠ "gas" →
  (unit_rate_zone rate_data = None →
     active_rate_field series rate_data m = Raise (KeyError "unit_rate_zone")) ∧
  (∀ zone, unit_rate_zone rate_data = Some (Some zone) → str_truthy zone = true →
     (unit_rate_low_start rate_data = None →
        active_rate_field series rate_data m = Raise (KeyError "unit_rate_low_start")) ∧
     (is_Some (unit_rate_low_start rate_data) → unit_rate_low_end rate_data = None →
        active_rate_field series rate_data m = Raise (KeyError "unit_rate_low_end"))).
Proof.
  intros Hgas. unfold active_rate_field. rewrite decide_False by done. split.
  - by intros ->.
  - intros zone -> Hz. simpl. rewrite Hz. simpl. split.
    + by intros ->.
    + by intros [clock ->] ->.
Qed.

Lemma resolver_missing_keys_witness :
  let rate_data := gas_rates None in
  (unit_rate_zone rate_data = None →
     active_rate_field "electricity" rate_data gas_reading
       = Raise (KeyError "unit_rate_zone")) ∧
  (∀ zone, unit_rate_zone rate_data = Some (Some zone) → str_truthy zone = true →
     (unit_rate_low_start rate_data = None →
        active_rate_field "electricity" rate_data gas_reading
          = Raise (KeyError "unit_rate_low_start")) ∧
     (is_Some (unit_rate_low_start rate_data) → unit_rate_low_end rate_data = None →
        active_rate_field "electricity" rate_data gas_reading
          = Raise (KeyError "unit_rate_low_end"))).
Proof.
  apply (resolver_missing_keys "electricity" (gas_rates None) gas_reading).
  discriminate.
Defined.

(** X7. Computing the fields of a gas reading with a catalog that has no
    [unit_rate] raises [KeyError('unit_rate')]. Once the rate is found, a
    catalog without [standing_charge] raises [KeyError('standing_charge')],
    and a catalog with a non-empty agile table and no
    [agile_standing_charge] raises [KeyError('agile_standing_charge')]. *)
Theorem fields_missing_keys `{TimeLib} (series : string) (rate_data : rate_catalog)
    (m : metric) :
  (series = "gas" → unit_rate rate_data = None →
     fields_for_measurement series rate_data m = Raise (KeyError "unit_rate")) ∧
  (∀ rate rate_cost,
     active_rate_field series rate_data m = Ok rate →
     rate_data_rate rate_data rate = Ok rate_cost →
     (standing_charge rate_data = None →
        fields_for_measurement series rate_data m = Raise (KeyError "standing_charge")) ∧
     (is_Some (standing_charge rate_data) →
      agile_data rate_data ≠ [] →
      agile_standing_charge rate_data = None →
        fields_for_measurement series rate_data m
          = Raise (KeyError "agile_standing_charge"))).
Proof.
  split.
  - intros -> Hnone. unfold fields_for_measurement, active_rate_field.
    rewrite decide_True by done. cbn [mbind result_bind].
    unfold rate_data_rate. rewrite decide_True by done. by rewrite Hnone.
  - intros rate rate_cost Hrate Hcost. unfold fields_for_measurement.
    rewrite Hrate. cbn [mbind result_bind]. rewrite Hcost. cbn [mbind result_bind].
    split.
    + by intros ->.
    + intros [charge ->] Hagile Hnone. cbn [mbind result_bind subscript].
      destruct (agile_data rate_data); [done|]. cbn [list_truthy].
      by rewrite Hnone.
Qed.

(** ** The agile table, again *)

(** X8. In the agile table built from [agile_unit_rates], the entry of a
    timestamp is the rate of the last point that carries it: a later
    duplicate replaces an earlier one. *)
Theorem agile_rates_last_wins (rate_data : rate_catalog)
    (before after : list rate_point) (pt : rate_point) :
  agile_data rate_data = before ++ pt :: after →
  (∀ later, later ∈ after → valid_from later ≠ valid_from pt) →
  agile_rates rate_data !! valid_from pt = Some (value_inc_vat pt).
Proof.
  unfold agile_rates. intros -> Hlater.
  rewrite foldl_app. simpl.
  generalize (foldl (λ d p, <[valid_from p := value_inc_vat p]> d)
                (∅ : gmap string float) before).
  induction after as [|later after IH] using rev_ind; intros table.
  - simpl. by rewrite lookup_insert_eq.
  - rewrite foldl_app. simpl. rewrite lookup_insert_ne.
    + apply IH. intros q Hq. apply Hlater. set_solver.
    + apply Hlater. set_solver.
Qed.

Lemma agile_rates_last_wins_witness :
  agile_rates agile_rate_data !! "2023-07-01T12:00:00Z" = Some 31.25%float.
Proof.
  apply (agile_rates_last_wins agile_rate_data
           [ {| valid_from := "2023-07-01T12:00:00Z"; value_inc_vat := 29.75%float |};
             {| valid_from := "2023-07-01T11:30:00Z"; value_inc_vat := 30.5%float |} ]
           [ {| valid_from := "2023-07-01T12:30:00Z"; value_inc_vat := 32.5%float |} ]
           {| valid_from := "2023-07-01T12:00:00Z"; value_inc_vat := 31.25%float |}).
  - reflexivity.
  - intros later Hin. apply list_elem_of_singleton in Hin. subst later. discriminate.
Defined.

(** X9. The agile table has no entry at a key exactly when no point of
    [agile_unit_rates] has that key as its [valid_from]. *)
Theorem agile_rates_None_iff (rate_data : rate_catalog) (key : string) :
  agile_rates rate_data !! key = None
  ↔ ∀ pt, pt ∈ agile_data rate_data → valid_from pt ≠ key.
Proof.
  split; [|apply agile_rates_None].
  unfold agile_rates. induction (agile_data rate_data) as [|pt pts IH] using rev_ind.
  - by intros _ pt ?%elem_of_nil.
  - rewrite foldl_app. simpl. intros Hnone pt' Hin.
    apply lookup_insert_None in Hnone as [Hrest Hne].
    apply elem_of_app in Hin as [Hin | ->%list_elem_of_singleton]; [|done].
    by apply IH.
Qed.

(** X10. When the agile table is not empty, the fields of every point are
    exactly the four base fields and [agile_rate], [agile_cost],
    [agile_total_cost], and [agile_cost] is [agile_rate] times the
    [consumption] field. *)
Theorem agile_fields_present `{TimeLib} (series : string) (account_name : option string)
    (rate_data : rate_catalog) (metrics : list metric) (batch : list point) (p : point) :
  agile_data rate_data ≠ [] →
  store_series series account_name rate_data metrics = Ok batch →
  p ∈ batch →
  dom (pt_fields p)
    = ({[ "consumption"; "cost"; "total_cost"; "rate";
          "agile_rate"; "agile_cost"; "agile_total_cost" ]} : gset string) ∧
  ∃ agile_rate kwh,
    pt_fields p !! "agile_rate" = Some agile_rate ∧
    pt_fields p !! "consumption" = Some kwh ∧
    pt_fields p !! "agile_cost" = Some (agile_rate * kwh)%float.
Proof.
  intros Hagile Hs Hp.
  destruct (store_series_point_of _ _ _ _ _ _ Hs Hp) as (m & _ & _ & _ & Hf).
  apply fields_for_measurement_Ok in Hf as (rate & rate_cost & charge & _ & _ & _ & Hf).
  destruct Hf as [[Hnil _] | (_ & agile_charge & at_ & _ & _ & ->)]; [done|].
  split.
  - rewrite !dom_insert_L, base_fields_dom. set_solver.
  - eexists _, (converted_consumption rate_data m).
    split; [by simplify_map_eq|]. split.
    + rewrite !lookup_insert_ne by done. apply base_fields_consumption.
    + by simplify_map_eq.
Qed.

Lemma agile_fields_present_witness :
  let batch :=
    batch_of (store_series "electricity" None agile_rate_data
                [reading "2023-07-01T12:00:00Z" 2%float]) in
  Forall (λ p,
    dom (pt_fields p)
      = ({[ "consumption"; "cost"; "total_cost"; "rate";
            "agile_rate"; "agile_cost"; "agile_total_cost" ]} : gset string) ∧
    ∃ agile_rate kwh,
      pt_fields p !! "agile_rate" = Some agile_rate ∧
      pt_fields p !! "consumption" = Some kwh ∧
      pt_fields p !! "agile_cost" = Some (agile_rate * kwh)%float) batch.
Proof.
  intros batch. apply Forall_forall. intros p Hp.
  apply (agile_fields_present "electricity" None agile_rate_data
           [reading "2023-07-01T12:00:00Z" 2%float] batch p).
  - discriminate.
  - vm_compute. reflexivity.
  - exact Hp.
Defined.


(** ** Fetching *)

Lemma page_args_period from_date to_date page :
  page_args from_date to_date page !! "period_from" = Some from_date ∧
  page_args from_date to_date page !! "period_to" = Some to_date.
Proof.
  unfold page_args, period_args.
  destruct page as [p|]; [destruct (str_truthy p)|]; by simplify_map_eq.
Qed.

(** X11. Whatever the provider answers, a fetch adds to the events only
    requests to its own URL, with its API key and its period, and at most
    as many of them as the recursion limit. *)
Theorem fetch_only_sends_its_requests `{PyLib} {A : Type}
    (api : request → result (page_data A))
    (api_key url_ from_date to_date : string) (page : option string)
    (depth : nat) (tr : list event) :
  ∃ new,
    (retrieve_paginated_data depth api api_key url_ from_date to_date page tr).2
      = tr ++ new ∧
    (length new ≤ depth)%nat ∧
    Forall (fetch_request api_key url_ from_date to_date) new.
Proof.
  revert page tr. induction depth as [|depth IH]; intros page tr.
  - exists []. simpl. by rewrite app_nil_r.
  - rewrite retrieve_paginated_data_unfold.
    set (rq := {| url := url_; params := page_args from_date to_date page;
                  auth := api_key |}).
    assert (fetch_request api_key url_ from_date to_date (HttpGet rq)) as Hrq.
    { exists rq. by pose proof (page_args_period from_date to_date page) as [? ?]. }
    assert (∃ new, tr ++ [HttpGet rq] = tr ++ new ∧ (length new ≤ S depth)%nat
                   ∧ Forall (fetch_request api_key url_ from_date to_date) new) as Hone.
    { exists [HttpGet rq]. simpl. repeat split; [lia | by constructor]. }
    destruct (api rq) as [data|e]; [|done].
    destruct (next data) as [next_|]; [|done].
    destruct (opt_truthy next_); [|done].
    destruct (query_page (default "" next_)) as [next_page|e]; [|done].
    destruct (IH (Some next_page) (tr ++ [HttpGet rq])) as (new & Htr & Hlen & Hall).
    destruct (retrieve_paginated_data depth api api_key url_ from_date to_date
                (Some next_page) (tr ++ [HttpGet rq])) as [[more|e] tr'];
      simpl in Htr; subst tr'; simpl;
      (exists (HttpGet rq :: new); rewrite <- app_assoc; simpl;
       repeat split; [lia | by constructor]).
Qed.

(** X12. When the provider serves more pages than the recursion limit
    allows calls, the fetch raises [RecursionError] after as many requests
    as the limit, and returns none of the results. *)
Theorem fetch_recursion_limit `{PyLib} {A : Type} (api : request → result (page_data A))
    (api_key url_ from_date to_date : string) (page : option string)
    (pages : list (list A)) (depth : nat) (tr : list event) :
  page_chain api api_key url_ from_date to_date page pages →
  (depth < length pages)%nat →
  ∃ tr',
    retrieve_paginated_data depth api api_key url_ from_date to_date page tr
      = (Raise RecursionError, tr') ∧
    length tr' = (length tr + depth)%nat.
Proof.
  intros Hchain. revert depth tr.
  induction Hchain as [page data Hget Hnext
                      | page data link next_page pages Hget Hnext Hlink Hquery _ IH];
    intros depth tr Hdepth.
  - simpl in Hdepth. assert (depth = 0%nat) as -> by lia.
    exists tr. simpl. split; [done | lia].
  - destruct depth as [|depth].
    { exists tr. simpl. split; [done | lia]. }
    rewrite retrieve_paginated_data_unfold, Hget, Hnext. simpl.
    rewrite Hlink, Hquery.
    destruct (IH depth (tr ++ [HttpGet {| url := url_;
                                          params := page_args from_date to_date page;
                                          auth := api_key |}])) as (tr' & -> & Hlen).
    { simpl in Hdepth. lia. }
    exists tr'. split; [done|]. rewrite Hlen, length_app. simpl. lia.
Qed.

(** The three pages of [three_pages], as a chain. *)
Lemma three_pages_chain :
  page_chain three_pages "sk_live_key" endpoint
    "2023-01-01T00:00:00Z" "2023-01-02T00:00:00Z" None
    [ [reading "2023-01-01T00:00:00Z" 1%float];
      [reading "2023-01-01T00:30:00Z" 2%float];
      [reading "2023-01-01T01:00:00Z" 3%float] ].
Proof.
  apply (page_chain_next three_pages _ _ _ _ None
           {| results := Some [reading "2023-01-01T00:00:00Z" 1%float];
              next := Some (Some (endpoint
                        +:+ "?page=2&period_from=2023-01-01T00:00:00Z")) |}
           (endpoint +:+ "?page=2&period_from=2023-01-01T00:00:00Z") "2");
    [reflexivity | reflexivity | reflexivity | reflexivity |].
  apply (page_chain_next three_pages _ _ _ _ (Some "2")
           {| results := Some [reading "2023-01-01T00:30:00Z" 2%float];
              next := Some (Some (endpoint
                        +:+ "?page=3&period_from=2023-01-01T00:00:00Z")) |}
           (endpoint +:+ "?page=3&period_from=2023-01-01T00:00:00Z") "3");
    [reflexivity | reflexivity | reflexivity | reflexivity |].
  apply (page_chain_last three_pages _ _ _ _ (Some "3")
           {| results := Some [reading "2023-01-01T01:00:00Z" 3%float];
              next := Some None |});
    [reflexivity | left; reflexivity].
Qed.

Lemma fetch_recursion_limit_witness :
  ∃ tr',
    retrieve_paginated_data 2 three_pages "sk_live_key" endpoint
      "2023-01-01T00:00:00Z" "2023-01-02T00:00:00Z" None []
      = (Raise RecursionError, tr') ∧
    length tr' = (length ([] : list event) + 2)%nat.
Proof.
  apply (fetch_recursion_limit three_pages _ _ _ _ None
           [ [reading "2023-01-01T00:00:00Z" 1%float];
             [reading "2023-01-01T00:30:00Z" 2%float];
             [reading "2023-01-01T01:00:00Z" 3%float] ]).
  - exact three_pages_chain.
  - simpl. lia.
Defined.

(** X13. When a request of a fetch fails after [served] pages (an HTTP
    error, an answer without [next], a [next] link without a page), the
    fetch raises that error after [served + 1] requests: the results of the
    pages already fetched are discarded. *)
Theorem fetch_failure_discards_pages `{PyLib} {A : Type}
    (api : request → result (page_data A))
    (api_key url_ from_date to_date : string) (page : option string)
    (served depth : nat) (e : exn) (tr : list event) :
  page_chain_fails api api_key url_ from_date to_date page served e →
  (served < depth)%nat →
  ∃ tr',
    retrieve_paginated_data depth api api_key url_ from_date to_date page tr
      = (Raise e, tr') ∧
    length tr' = (length tr + S served)%nat.
Proof.
  intros Hfails. revert depth tr.
  induction Hfails as [page e Hget | page data Hget Hnext
                      | page data link e Hget Hnext Hlink Hquery
                      | page data link next_page served e Hget Hnext Hlink Hquery _ IH];
    intros depth tr Hdepth; (destruct depth as [|depth]; [lia|]);
    rewrite retrieve_paginated_data_unfold, Hget.
  - eexists. split; [done|]. rewrite length_app. simpl. lia.
  - rewrite Hnext. eexists. split; [done|]. rewrite length_app. simpl. lia.
  - rewrite Hnext. simpl. rewrite Hlink, Hquery.
    eexists. split; [done|]. rewrite length_app. simpl. lia.
  - rewrite Hnext. simpl. rewrite Hlink, Hquery.
    destruct (IH depth (tr ++ [HttpGet {| url := url_;
                                          params := page_args from_date to_date page;
                                          auth := api_key |}])) as (tr' & -> & Hlen).
    { lia. }
    exists tr'. split; [done|]. rewrite Hlen, length_app. simpl. lia.
Qed.

Lemma fetch_failure_discards_pages_witness :
  ∃ tr',
    retrieve_paginated_data 1000 second_page_refused "sk_live_key" endpoint
      "2023-01-01T00:00:00Z" "2023-01-02T00:00:00Z" None []
      = (Raise (HTTPError endpoint), tr') ∧
    length tr' = (length ([] : list event) + 2)%nat.
Proof.
  apply (fetch_failure_discards_pages second_page_refused _ _ _ _ None 1).
  - apply (page_chain_fails_later second_page_refused _ _ _ _ None
             {| results := Some [reading "2023-01-01T00:00:00Z" 1%float];
                next := Some (Some (endpoint +:+ "?page=2")) |}
             (endpoint +:+ "?page=2") "2");
      [reflexivity | reflexivity | reflexivity | reflexivity |].
    apply page_chain_fails_request. reflexivity.
  - lia.
Defined.

(** X14. [get_latest_value_inc_vat] sends one request and returns the
    [value_inc_vat] of the first result, whatever the other results and
    [next]; an answer with no result raises [IndexError], and an error of the
    request is raised as it is. *)
Theorem latest_value_is_first_result (w : world)
    (from_iso to_iso sc_url api_key : string) (tr : list event) :
  let rq := {| url := sc_url; params := period_args from_iso to_iso; auth := api_key |} in
  (∀ e, rates_api w rq = Raise e →
     get_latest_value_inc_vat w from_iso to_iso sc_url api_key tr
       = (Raise e, tr ++ [HttpGet rq])) ∧
  (∀ data, rates_api w rq = Ok data →
     results data = None ∨ results data = Some [] →
     get_latest_value_inc_vat w from_iso to_iso sc_url api_key tr
       = (Raise IndexError, tr ++ [HttpGet rq])) ∧
  (∀ data first others, rates_api w rq = Ok data →
     results data = Some (first :: others) →
     get_latest_value_inc_vat w from_iso to_iso sc_url api_key tr
       = (Ok (value_inc_vat first), tr ++ [HttpGet rq])).
Proof.
  intros rq.
  unfold get_latest_value_inc_vat, requests_get, emit, lift, raise, mbind, IO_bind.
  fold rq. repeat split.
  - by intros e ->.
  - by intros data -> [-> | ->].
  - by intros data first others -> ->.
Qed.


(** ** The catalogs of a run *)

Section builders.
Context `{PyLib}.
Context (config : gmap string (gmap string string)).

(** X19. With none of the electricity tariff options set, the
    electricity catalog of a run takes both standing charges from the
    retrieved value, unit rates of 0.0, a window from 00:00 to 00:00 in the
    run's zone, and an empty agile table. *)
Theorem electricity_rate_data_defaults (timezone : string) (retrieved : float) :
  config_get config "electricity" "standing_charge" = None →
  config_get config "electricity" "unit_rate_high" = None →
  config_get config "electricity" "unit_rate_low" = None →
  config_get config "electricity" "agile_standing_charge" = None →
  config_get config "electricity" "unit_rate_low_start" = None →
  config_get config "electricity" "unit_rate_low_end" = None →
  electricity_rate_data config timezone retrieved
  = Ok {| standing_charge := Some retrieved;
          unit_rate := None;
          unit_rate_high := Some 0%float;
          unit_rate_low := Some 0%float;
          unit_rate_low_start := Some "00:00";
          unit_rate_low_end := Some "00:00";
          unit_rate_zone := Some (Some timezone);
          conversion_factor := None;
          agile_standing_charge := Some retrieved;
          agile_unit_rates := Some [] |}.
Proof.
  intros Hsc Hhigh Hlow Hagile Hstart Hend.
  unfold electricity_rate_data, getfloat.
  by rewrite Hsc, Hhigh, Hlow, Hagile, Hstart, Hend.
Qed.

Lemma getfloat_override section option_ fallback value x y :
  config_get config section option_ = Some value →
  py_float value = Ok x →
  getfloat config section option_ fallback = Ok y →
  y = x.
Proof. unfold getfloat. intros -> Hx. rewrite Hx. by intros [= <-]. Qed.

(** X20. In the electricity catalog of a run, an option that the
    configuration sets takes the place of its fallback: the standing
    charges and unit rates are the floats of the configured texts, the
    window bounds are the configured texts; the zone is the run's zone. *)
Theorem electricity_rate_data_overrides (timezone : string) (retrieved : float)
    (rate_data : rate_catalog) :
  electricity_rate_data config timezone retrieved = Ok rate_data →
  (∀ value x, config_get config "electricity" "standing_charge" = Some value →
     py_float value = Ok x → standing_charge rate_data = Some x) ∧
  (∀ value x, config_get config "electricity" "agile_standing_charge" = Some value →
     py_float value = Ok x → agile_standing_charge rate_data = Some x) ∧
  (∀ value x, config_get config "electricity" "unit_rate_high" = Some value →
     py_float value = Ok x → unit_rate_high rate_data = Some x) ∧
  (∀ value x, config_get config "electricity" "unit_rate_low" = Some value →
     py_float value = Ok x → unit_rate_low rate_data = Some x) ∧
  (∀ value, config_get config "electricity" "unit_rate_low_start" = Some value →
     unit_rate_low_start rate_data = Some value) ∧
  (∀ value, config_get config "electricity" "unit_rate_low_end" = Some value →
     unit_rate_low_end rate_data = Some value) ∧
  unit_rate_zone rate_data = Some (Some timezone) ∧
  agile_unit_rates rate_data = Some [].
Proof.
  unfold electricity_rate_data. intros Hrd.
  apply bind_Ok in Hrd as (charge & Hcharge & Hrd).
  apply bind_Ok in Hrd as (high & Hhigh & Hrd).
  apply bind_Ok in Hrd as (low & Hlow & Hrd).
  apply bind_Ok in Hrd as (agile_charge & Hagile & Hrd).
  injection Hrd as <-. simpl.
  repeat split.
  - intros value x Hv Hx. f_equal. by eapply getfloat_override.
  - intros value x Hv Hx. f_equal. by eapply getfloat_override.
  - intros value x Hv Hx. f_equal. by eapply getfloat_override.
  - intros value x Hv Hx. f_equal. by eapply getfloat_override.
  - by intros value ->.
  - by intros value ->.
Qed.

End builders.


Lemma electricity_rate_data_overrides_witness :
  let rate_data :=
    {| standing_charge := Some 48.5%float;
       unit_rate := None;
       unit_rate_high := Some 30.25%float;
       unit_rate_low := Some 9.5%float;
       unit_rate_low_start := Some "00:30";
       unit_rate_low_end := Some "04:30";
       unit_rate_zone := Some (Some "Europe/London");
       conversion_factor := None;
       agile_standing_charge := Some 48%float;
       agile_unit_rates := Some [] |} in
  (∀ value x, config_get tariff_config "electricity" "standing_charge" = Some value →
     float_of_string value = Ok x → standing_charge rate_data = Some x) ∧
  (∀ value x, config_get tariff_config "electricity" "agile_standing_charge" = Some value →
     float_of_string value = Ok x → agile_standing_charge rate_data = Some x) ∧
  (∀ value x, config_get tariff_config "electricity" "unit_rate_high" = Some value →
     float_of_string value = Ok x → unit_rate_high rate_data = Some x) ∧
  (∀ value x, config_get tariff_config "electricity" "unit_rate_low" = Some value →
     float_of_string value = Ok x → unit_rate_low rate_data = Some x) ∧
  (∀ value, config_get tariff_config "electricity" "unit_rate_low_start" = Some value →
     unit_rate_low_start rate_data = Some value) ∧
  (∀ value, config_get tariff_config "electricity" "unit_rate_low_end" = Some value →
     unit_rate_low_end rate_data = Some value) ∧
  unit_rate_zone rate_data = Some (Some "Europe/London") ∧
  agile_unit_rates rate_data = Some [].
Proof.
  intros rate_data.
  apply (electricity_rate_data_overrides (H := decimal_lib) tariff_config
           "Europe/London" 48%float rate_data).
  vm_compute. reflexivity.
Defined.

Lemma electricity_rate_data_defaults_witness :
  electricity_rate_data minimal_config "Europe/London" 48%float
  = Ok {| standing_charge := Some 48%float;
          unit_rate := None;
          unit_rate_high := Some 0%float;
          unit_rate_low := Some 0%float;
          unit_rate_low_start := Some "00:00";
          unit_rate_low_end := Some "00:00";
          unit_rate_zone := Some (Some "Europe/London");
          conversion_factor := None;
          agile_standing_charge := Some 48%float;
          agile_unit_rates := Some [] |}.
Proof.
  apply (electricity_rate_data_defaults minimal_config); reflexivity.
Defined.

Section cmd_more.
Context `{TimeLib} `{PyLib}.
Context (w : world) (recursion_limit : nat).
Context (config : gmap string (gmap string string)) (from_date to_date : string).

(** X15. A run whose configuration has no [octopus] section raises
    [NoSectionError], one whose [octopus] section has no [api_key] option
    raises [NoOptionError]; either way no event is added. *)
Theorem cmd_missing_api_key_option port tr :
  getint config "influxdb" "port" 8086 = Ok port →
  (config !! "octopus" = None →
     cmd w recursion_limit config from_date to_date tr
       = (Raise (NoSectionError "octopus"), tr)) ∧
  (∀ section, config !! "octopus" = Some section → section !! "api_key" = None →
     cmd w recursion_limit config from_date to_date tr
       = (Raise (NoOptionError "api_key" "octopus"), tr)).
Proof.
  intros Hport. unfold cmd, config_get_required, mbind, IO_bind, lift, raise.
  rewrite Hport. split.
  - by intros ->.
  - by intros section -> ->.
Qed.
End cmd_more.

Lemma cmd_missing_api_key_option_witness :
  let config : gmap string (gmap string string) := {[ "octopus" := ∅ ]} in
  (config !! "octopus" = None →
     cmd provider 1000 config "2023-01-01T00:00" "2023-01-02T00:00" []
       = (Raise (NoSectionError "octopus"), [])) ∧
  (∀ section, config !! "octopus" = Some section → section !! "api_key" = None →
     cmd provider 1000 config "2023-01-01T00:00" "2023-01-02T00:00" []
       = (Raise (NoOptionError "api_key" "octopus"), [])).
Proof.
  apply (cmd_missing_api_key_option provider 1000 _ _ _ 8086). reflexivity.
Defined.


(** ** The events of a run *)

Section io_spec.
Context {P : event → Prop}.






End io_spec.

Section cmd_requests.
Context `{TimeLib} `{PyLib}.
Context (w : world) (recursion_limit : nat).
Context (config : gmap string (gmap string string)) (from_date to_date : string).







End cmd_requests.


(** ** A whole run *)

Lemma io_bind_Ok {A B} (m : IO A) (f : A → IO B) tr a tr' :
  m tr = (Ok a, tr') → (m ≫= f) tr = f a tr'.
Proof. unfold mbind, IO_bind. by intros ->. Qed.

Lemma lift_Ok {A} (r : result A) (a : A) tr : r = Ok a → lift r tr = (Ok a, tr).
Proof. by intros ->. Qed.

Lemma emit_Ok (e : event) tr : emit e tr = (Ok (), tr ++ [e]).
Proof. done. Qed.

Section cmd_run.
Context `{TimeLib} `{PyLib}.
Context (w : world) (recursion_limit : nat).
Context (config : gmap string (gmap string string)) (from_date to_date : string).

(** X23. A run with gas ignored whose steps all succeed: one request for
    the standing charge, the fetch of the consumption, the fetch of the
    agile rates, then one batch written, which is [store_series] on the
    fetched consumption with the catalog of the configuration and the
    fetched agile rates as its agile table; the run returns. *)
Theorem cmd_run_with_gas_ignored (port : Z) (api_key : string) (from_ to_ : Z)
    (data : page_data rate_point) (first : rate_point) (others : list rate_point)
    (rate_data : rate_catalog) (e_consumption : list metric) (agile : list rate_point)
    (batch : list point) (tr tr1 tr2 : list event) :
  getint config "influxdb" "port" 8086 = Ok port →
  config_get_required config "octopus" "api_key" = Ok api_key →
  str_truthy api_key = true →
  let timezone :=
    default "Europe/London" (config_get config "electricity" "unit_rate_time_zone") in
  maya_when from_date timezone = Ok from_ →
  maya_when to_date timezone = Ok to_ →
  opt_truthy (config_get config "electricity" "mpan") = true →
  opt_truthy (config_get config "electricity" "serial_number") = true →
  let from_iso := iso8601 from_ in
  let to_iso := iso8601 to_ in
  let e_url :=
    api_root +:+ "electricity-meter-points/"
    +:+ fstr (config_get config "electricity" "mpan")
    +:+ "/meters/" +:+ fstr (config_get config "electricity" "serial_number")
    +:+ "/consumption/" in
  let e_tariff :=
    api_root +:+ "products/"
    +:+ default "AGILE-FLEX-22-11-25" (config_get config "electricity" "product_code")
    +:+ "/electricity-tariffs/"
    +:+ default "E-1R-AGILE-FLEX-22-11-25-C"
          (config_get config "electricity" "tariff_code") in
  let e_sc_request :=
    {| url := e_tariff +:+ "/standing-charges/";
       params := period_args from_iso to_iso;
       auth := api_key |} in
  rates_api w e_sc_request = Ok data →
  results data = Some (first :: others) →
  getboolean config "gas" "ignore" false = Ok true →
  electricity_rate_data config timezone (value_inc_vat first) = Ok rate_data →
  retrieve_paginated_data recursion_limit (consumption_api w) api_key e_url
    from_iso to_iso None
    ((tr ++ [HttpGet e_sc_request])
     ++ [Echo ("Retrieving electricity data for " +:+ from_iso
               +:+ " until " +:+ to_iso +:+ "...")])
    = (Ok e_consumption, tr1) →
  retrieve_paginated_data recursion_limit (rates_api w) api_key
    (e_tariff +:+ "/standard-unit-rates/") from_iso to_iso None
    ((tr1 ++ [Echo (" " +:+ pretty (length e_consumption) +:+ " readings.")])
     ++ [Echo ("Retrieving Agile rates for " +:+ from_iso
               +:+ " until " +:+ to_iso +:+ "...")])
    = (Ok agile, tr2) →
  store_series "electricity" (config_get config "octopus" "account_name")
    (with_agile agile rate_data) e_consumption = Ok batch →
  influx_write w batch = Ok tt →
  cmd w recursion_limit config from_date to_date tr
  = (Ok tt,
     (tr2 ++ [Echo (" " +:+ pretty (length agile) +:+ " rates.")])
     ++ [WritePoints batch]).
Proof.
  intros Hport Hkey Htruthy timezone Hfrom Hto Hmpan Hserial from_iso to_iso
    e_url e_tariff rq Hget Hres Hign Hrd Hcons Hagile Hstore Hwrite.
  assert (get_latest_value_inc_vat w from_iso to_iso (url rq) api_key tr
          = (Ok (value_inc_vat first), tr ++ [HttpGet rq])) as Hlatest.
  { unfold get_latest_value_inc_vat, requests_get.
    erewrite io_bind_Ok; [|erewrite io_bind_Ok; [by apply lift_Ok | apply emit_Ok]].
    by rewrite Hres. }
  unfold cmd.
  erewrite io_bind_Ok by (by apply lift_Ok).
  erewrite io_bind_Ok by (by apply lift_Ok).
  rewrite Htruthy. cbn [negb]. fold timezone.
  erewrite io_bind_Ok by (by apply lift_Ok).
  erewrite io_bind_Ok by (by apply lift_Ok).
  rewrite Hmpan, Hserial. cbn [negb orb]. cbv zeta.
  erewrite io_bind_Ok by exact Hlatest.
  erewrite io_bind_Ok by (by apply lift_Ok).
  rewrite andb_false_r. cbn [negb].
  erewrite io_bind_Ok by done.
  erewrite io_bind_Ok by (by apply lift_Ok).
  erewrite io_bind_Ok by done.
  erewrite io_bind_Ok by apply emit_Ok.
  erewrite io_bind_Ok by exact Hcons.
  erewrite io_bind_Ok by apply emit_Ok.
  erewrite io_bind_Ok by apply emit_Ok.
  erewrite io_bind_Ok by exact Hagile.
  erewrite io_bind_Ok by apply emit_Ok.
  erewrite io_bind_Ok.
  2:{ unfold store_series_io.
      erewrite io_bind_Ok by (apply lift_Ok; exact Hstore).
      erewrite io_bind_Ok by apply emit_Ok.
      by apply lift_Ok. }
  done.
Qed.
End cmd_run.

Lemma cmd_run_with_gas_ignored_witness :
  ∃ agile_count batch tr2,
    cmd provider 1000 gas_ignored_config "2023-01-01T00:00" "2023-01-02T00:00" []
    = (Ok tt, (tr2 ++ [Echo agile_count]) ++ [WritePoints batch])
    ∧ length batch = 3%nat.
Proof.
  eexists _, _, _. split.
  - eapply (cmd_run_with_gas_ignored provider 1000 gas_ignored_config);
      try (vm_compute; reflexivity).
  - vm_compute. reflexivity.
Defined.
